(** * Background manager of sync_gateway (db/background_mgr.go)

    A shallow embedding of the cluster-aware background job manager and of
    the attachment compaction process, with the properties of its lifecycle,
    leasing and resumption logic.

    Conventions of the embedding:
    - every Go function that reads or writes the manager, the bucket or a
      terminator is a function from the state it touches to its result and the
      new state; a function body is executed atomically (what [b.lock]
      guarantees for the critical sections), and each goroutine is the
      function of one of its iterations;
    - packages that the file imports ([base], [sgbucket], [uuid], JSON) are
      interfaces: type classes whose instances are supplied by the caller;
    - a Go [error] value is [option error] ([None] is nil), a [[]byte] that
      may be nil is [option bytes]; a function that can panic (a type
      assertion without comma-ok, a nil dereference) returns an option, [None]
      being the panic;
    - logging is left out. *)

From Stdlib Require Import ZArith Ascii String List Bool Lia.
From stdpp Require Import base option list strings pretty gmap.

Local Open Scope string_scope.
Local Open Scope list_scope.

(** ** Errors ([error], [base.HTTPError], [pkg/errors]) *)

Inductive error : Type :=
  | HTTPError (status : Z) (message : string)
  | DocNotFound
  | CasMismatch
  | Wrap (cause : error) (message : string)
  | Failure (message : string).

#[global] Instance error_eq_dec : EqDecision error.
Proof. solve_decision. Defined.

Inductive result (A : Type) : Type :=
  | Ok (a : A)
  | Err (e : error).
Arguments Ok {A} a.
Arguments Err {A} e.

Definition StatusServiceUnavailable : Z := 503.
Definition StatusInternalServerError : Z := 500.

(** Modelled from the spec: [pkgerrors.Cause] and the two classifiers of
    [base] ("Error classifier helpers: IsDocNotFound(err), IsCasMismatch(err)"),
    which look through wrapping. *)
Fixpoint Cause (e : error) : error :=
  match e with
  | Wrap c _ => Cause c
  | _ => e
  end.

Definition IsDocNotFoundError (e : error) : bool :=
  match Cause e with DocNotFound => true | _ => false end.

Definition IsCasMismatch (e : option error) : bool :=
  match e with
  | Some e => match Cause e with CasMismatch => true | _ => false end
  | None => false
  end.

(** [err.Error()], also what the verb %v prints. *)
Fixpoint Error (e : error) : string :=
  match e with
  | HTTPError s m => pretty s +:+ " " +:+ m
  | DocNotFound => "key not found"
  | CasMismatch => "cas mismatch"
  | Wrap c m => m +:+ ": " +:+ Error c
  | Failure m => m
  end.

(** ** States and constants *)

Abbreviation BackgroundProcessState := string (only parsing).

Definition BackgroundProcessStateRunning : BackgroundProcessState := "running".
Definition BackgroundProcessStateCompleted : BackgroundProcessState := "completed".
Definition BackgroundProcessStateStopping : BackgroundProcessState := "stopping".
Definition BackgroundProcessStateStopped : BackgroundProcessState := "stopped".
Definition BackgroundProcessStateError : BackgroundProcessState := "error".

Definition BackgroundManagerHeartbeatExpirySecs : Z := 30.
Definition BackgroundManagerHeartbeatIntervalSecs : Z := 1.
Definition BackgroundManagerStatusUpdateIntervalSecs : Z := 1.

(** ** Data *)

Abbreviation bytes := string (only parsing).

(** A value of [map[string]interface{}] as the callers of [Start] build it. *)
Inductive Value : Type :=
  | VBool (b : bool)
  | VInt (n : Z)
  | VString (s : string)
  | VDatabase.

#[global] Instance Value_eq_dec : EqDecision Value.
Proof. solve_decision. Defined.

(** The comma-ok type assertion [v, ok := m[k].(bool)]. *)
Definition assertBool (v : option Value) : bool * bool :=
  match v with
  | Some (VBool b) => (b, true)
  | _ => (false, false)
  end.

(** What [json.Unmarshal] stores in an [interface{}]. *)
#[warnings="-register-all"]
Inductive json : Type :=
  | JNull
  | JBool (b : bool)
  | JNumber (n : Z)
  | JString (s : string)
  | JArray (l : list json)
  | JObject (fields : list (string * json)).

(** The comma-ok type assertion [s, ok := m[k].(string)]. *)
Definition assertString (v : option json) : string * bool :=
  match v with
  | Some (JString s) => (s, true)
  | _ => ("", false)
  end.

Record BackgroundManagerStatus : Type := mkBackgroundManagerStatus {
  State : BackgroundProcessState;
  StartTime : Z;
  LastErrorMessage : string
}.

Record HeartbeatDoc : Type := mkHeartbeatDoc { ShouldStop : bool }.

Record ClusterAwareBackgroundManagerOptions : Type := mkClusterAwareOptions {
  processSuffix : string;
  lastSuccessfulHeartbeatUnix : Z
}.

Record AttachmentManagerResponse : Type := mkAttachmentManagerResponse {
  amr_Status : BackgroundManagerStatus;
  amr_MarkedAttachments : Z;
  amr_PurgedAttachments : Z;
  amr_CompactID : string;
  amr_Phase : string;
  amr_DryRun : bool
}.

Record ResyncManagerResponse : Type := mkResyncManagerResponse {
  rmr_Status : BackgroundManagerStatus;
  rmr_DocsChanged : Z;
  rmr_DocsProcessed : Z
}.

(** The manager; [terminator] is the address of a [base.SafeTerminator] in
    the heap of the world, the bucket of [clusterAwareOptions] is the bucket
    of the world. *)
Record BackgroundManager (P : Type) : Type := mkBackgroundManager {
  Status : BackgroundManagerStatus;
  lastError : option error;
  terminator : nat;
  clusterAwareOptions : option ClusterAwareBackgroundManagerOptions;
  Process : P
}.
Arguments mkBackgroundManager {P}.
Arguments Status {P}.
Arguments lastError {P}.
Arguments terminator {P}.
Arguments clusterAwareOptions {P}.
Arguments Process {P}.

Definition with_State (s : BackgroundProcessState) (st : BackgroundManagerStatus) :=
  mkBackgroundManagerStatus s (StartTime st) (LastErrorMessage st).
Definition with_StartTime (t : Z) (st : BackgroundManagerStatus) :=
  mkBackgroundManagerStatus (State st) t (LastErrorMessage st).
Definition with_LastErrorMessage (m : string) (st : BackgroundManagerStatus) :=
  mkBackgroundManagerStatus (State st) (StartTime st) m.

Definition set_Status {P} (st : BackgroundManagerStatus) (b : BackgroundManager P) :=
  mkBackgroundManager st (lastError b) (terminator b) (clusterAwareOptions b) (Process b).
Definition set_State {P} (s : BackgroundProcessState) (b : BackgroundManager P) :=
  set_Status (with_State s (Status b)) b.
Definition set_lastError {P} (e : option error) (b : BackgroundManager P) :=
  mkBackgroundManager (Status b) e (terminator b) (clusterAwareOptions b) (Process b).
Definition set_terminator {P} (t : nat) (b : BackgroundManager P) :=
  mkBackgroundManager (Status b) (lastError b) t (clusterAwareOptions b) (Process b).
Definition set_clusterAwareOptions {P} (o : option ClusterAwareBackgroundManagerOptions)
    (b : BackgroundManager P) :=
  mkBackgroundManager (Status b) (lastError b) (terminator b) o (Process b).
Definition set_Process {P} (p : P) (b : BackgroundManager P) :=
  mkBackgroundManager (Status b) (lastError b) (terminator b) (clusterAwareOptions b) p.

(** ** The collaborators *)

(** [base.Bucket]: the six operations the manager uses, on a bucket state [B].
    [WriteCas k flags exp cas v] creates only when [cas = 0]; [BucketSet] is
    [Set], which encodes its value (here always a heartbeat document). *)
Class Bucket (B : Type) : Type := {
  GetRaw : string -> B -> result (bytes * Z) * B;
  WriteCas : string -> Z -> Z -> Z -> bytes -> B -> result Z * B;
  SetRaw : string -> Z -> bytes -> B -> option error * B;
  BucketSet : string -> Z -> HeartbeatDoc -> B -> option error * B;
  Delete : string -> B -> option error * B;
  GetAndTouchRaw : string -> Z -> B -> result (bytes * Z) * B
}.

(** [base.JSONMarshal] and [base.JSONUnmarshal] at the types the file uses
    them at. Unmarshalling into a struct returns the struct as far as it was
    filled together with the error. *)
Class JSONCodec : Type := {
  JSONUnmarshal_map : bytes -> result (gmap string json);
  JSONMarshal_map : gmap string json -> result bytes;
  JSONUnmarshal_HeartbeatDoc : bytes -> HeartbeatDoc * option error;
  JSONUnmarshal_AttachmentManagerResponse :
    bytes -> AttachmentManagerResponse * option error;
  JSONMarshal_AttachmentManagerResponse : AttachmentManagerResponse -> result bytes;
  JSONMarshal_ResyncManagerResponse : ResyncManagerResponse -> result bytes
}.

(** The goroutines a manager starts. *)
Inductive Task : Type :=
  | HeartbeatRenewer
  | StatusPublisher
  | RunTask (options : gmap string Value).

(** What a [Run] did, in order (an instrumentation of the model). *)
Inductive RunEvent : Type :=
  | EvSetPhase (phase : string)
  (** the status callback was called while the phase field held [phase] *)
  | EvPersist (phase : string)
  (** a phase function returned [err]; [closed] is what [terminator.IsClosed()]
      answers after it *)
  | EvMark (err : option error) (closed : bool)
  | EvSweep (err : option error) (closed : bool)
  | EvCleanup (err : option error) (closed : bool)
  | EvUpdateAllDocChannels (err : option error).

(** ** The world outside the manager *)

Section World.
Context {B : Type}.

Record World : Type := mkWorld {
  bucket : B;
  (** heap of terminators: [true] once closed *)
  terminators : gmap nat bool;
  nextTerminator : nat;
  (** [time.Now()], in nanoseconds since the epoch *)
  clock : Z;
  (** the results of the coming calls of [uuid.NewRandom] *)
  entropy : list (result string);
  (** [DbStats.Database().CompactionAttachmentStartTime] *)
  CompactionAttachmentStartTime : Z;
  (** [database.State] *)
  DatabaseState : Z;
  goroutines : list Task
}.

Definition set_bucket (x : B) (w : World) : World :=
  mkWorld x (terminators w) (nextTerminator w) (clock w) (entropy w)
    (CompactionAttachmentStartTime w) (DatabaseState w) (goroutines w).
Definition set_terminators (x : gmap nat bool) (n : nat) (w : World) : World :=
  mkWorld (bucket w) x n (clock w) (entropy w)
    (CompactionAttachmentStartTime w) (DatabaseState w) (goroutines w).
Definition set_entropy (x : list (result string)) (w : World) : World :=
  mkWorld (bucket w) (terminators w) (nextTerminator w) (clock w) x
    (CompactionAttachmentStartTime w) (DatabaseState w) (goroutines w).
Definition set_CompactionAttachmentStartTime (x : Z) (w : World) : World :=
  mkWorld (bucket w) (terminators w) (nextTerminator w) (clock w) (entropy w)
    x (DatabaseState w) (goroutines w).
Definition set_DatabaseState (x : Z) (w : World) : World :=
  mkWorld (bucket w) (terminators w) (nextTerminator w) (clock w) (entropy w)
    (CompactionAttachmentStartTime w) x (goroutines w).
Definition spawn (t : Task) (w : World) : World :=
  mkWorld (bucket w) (terminators w) (nextTerminator w) (clock w) (entropy w)
    (CompactionAttachmentStartTime w) (DatabaseState w) (goroutines w ++ [t]).

(** Modelled from the spec: [base.SafeTerminator] ("Close(): idempotent",
    "IsClosed(): non-blocking snapshot", a fresh one at each Start). *)
Definition NewSafeTerminator (w : World) : nat * World :=
  (nextTerminator w,
   set_terminators (<[nextTerminator w := false]> (terminators w))
     (S (nextTerminator w)) w).
Definition Close (t : nat) (w : World) : World :=
  set_terminators (<[t := true]> (terminators w)) (nextTerminator w) w.
Definition IsClosed (t : nat) (w : World) : bool :=
  default false (terminators w !! t).

(** [uuid.NewRandom()] followed by [String()]. *)
Definition NewRandom (w : World) : result string * World :=
  match entropy w with
  | r :: rest => (r, set_entropy rest w)
  | [] => (Err (Failure "uuid: no entropy"), w)
  end.

(** [time.Now().UTC().Unix()] *)
Definition nowUnix (w : World) : Z := (clock w / 1000000000)%Z.

Record RunResult (P : Type) : Type := mkRunResult {
  run_err : option error;
  run_process : P;
  run_world : World;
  run_events : list RunEvent
}.
Arguments mkRunResult {P}.

Definition updateStatusCallbackFunc (P : Type) : Type :=
  P -> World -> option error * World.

(** [BackgroundManagerProcessI]. [Init] and [Run] are [None] when the
    process panics (a failed type assertion on the options). *)
Class BackgroundManagerProcessI (P : Type) : Type := {
  Init : gmap string Value -> option bytes -> P -> World ->
         option (option error * P * World);
  Run : gmap string Value -> updateStatusCallbackFunc P -> nat -> P -> World ->
        option (RunResult P);
  GetProcessStatus : BackgroundManagerStatus -> P -> result bytes;
  ResetStatus : P -> P
}.
End World.
Arguments World B : clear implicits.
Arguments mkRunResult {B P}.
Arguments run_err {B P}.
Arguments run_process {B P}.
Arguments run_world {B P}.
Arguments run_events {B P}.
Arguments BackgroundManagerProcessI B P : clear implicits.
Arguments updateStatusCallbackFunc B P : clear implicits.

(** The functions of package [db] that the processes call, and the two
    database states that resync uses. The counter behind the pointer argument
    of [Mark] and [Sweep] is passed in and returned; [UpdateAllDocChannels]
    is given the counters (processed, changed) and returns them as its
    callback left them. *)
Class DatabaseOps (B : Type) : Type := {
  Mark : string -> nat -> Z -> World B -> Z * option error * World B;
  Sweep : string -> bool -> nat -> Z -> World B -> Z * option error * World B;
  Cleanup : string -> nat -> World B -> option error * World B;
  UpdateAllDocChannels : bool -> nat -> Z * Z -> World B ->
                         Z * Z * option error * World B;
  DBResyncing : Z;
  DBOffline : Z
}.

(** ** Time ([time.Duration] is a count of nanoseconds) *)

Definition Second : Z := 1000000000.
Definition maxDuration : Z := 9223372036854775807.
Definition minDuration : Z := (-9223372036854775808)%Z.

(** [time.Unix(sec, 0)] as an instant in nanoseconds. A [time.Time] keeps
    its seconds and nanoseconds apart, so the instant is an unbounded count
    here; only [Sub] is brought back to the range of a [Duration]. *)
Definition Unix (sec : Z) : Z := (sec * Second)%Z.

(** [t.Sub(u)]: the difference, saturated to the range of a [Duration]. *)
Definition Sub (t u : Z) : Z :=
  let d := (t - u)%Z in
  if (d >? maxDuration)%Z then maxDuration
  else if (d <? minDuration)%Z then minDuration
  else d.

(** ** The manager *)

Section Manager.
Context {B : Type} `{!Bucket B} `{!JSONCodec}.
Context {P : Type} `{!BackgroundManagerProcessI B P}.
(** [base.SyncPrefix] *)
Variable SyncPrefix : string.

Definition HeartbeatDocID (o : ClusterAwareBackgroundManagerOptions) : string :=
  SyncPrefix +:+ ":background_process:heartbeat:" +:+ processSuffix o.

Definition StatusDocID (o : ClusterAwareBackgroundManagerOptions) : string :=
  SyncPrefix +:+ ":background_process:status:" +:+ processSuffix o.

Definition isClusterAware (b : BackgroundManager P) : bool :=
  match clusterAwareOptions b with Some _ => true | None => false end.

Definition processAlreadyRunningErr : error :=
  HTTPError StatusServiceUnavailable "Process already running".
Definition processAlreadyStoppedErr : error :=
  HTTPError StatusServiceUnavailable "Process already stopped".

Definition Terminate (b : BackgroundManager P) (w : World B) : World B :=
  Close (terminator b) w.

Definition setRunState (state : BackgroundProcessState) (b : BackgroundManager P) :=
  set_State state b.

Definition GetRunState (b : BackgroundManager P) : BackgroundProcessState :=
  State (Status b).

Definition SetError (err : error) (b : BackgroundManager P) (w : World B)
    : BackgroundManager P * World B :=
  let b := set_lastError (Some err) b in
  let b := set_State BackgroundProcessStateError b in
  (b, Terminate b w).

Definition markStart (b : BackgroundManager P) (w : World B)
    : option error * BackgroundManager P * World B :=
  match clusterAwareOptions b with
  | Some o =>
      let '(r, bk) := WriteCas (HeartbeatDocID o) 0
                        BackgroundManagerHeartbeatExpirySecs 0 "{}" (bucket w) in
      let w := set_bucket bk w in
      let err := match r with Ok _ => None | Err e => Some e end in
      if IsCasMismatch err then (Some processAlreadyRunningErr, b, w)
      else
        let '(t, w) := NewSafeTerminator w in
        let b := set_terminator t b in
        let w := spawn HeartbeatRenewer w in
        let b := set_State BackgroundProcessStateRunning b in
        (None, b, w)
  | None =>
      if State (Status b) =? BackgroundProcessStateRunning
      then (Some processAlreadyRunningErr, b, w)
      else if State (Status b) =? BackgroundProcessStateStopping
      then (Some (HTTPError StatusServiceUnavailable
                    "Process currently stopping. Wait until stopped to retry"), b, w)
      else
        let '(t, w) := NewSafeTerminator w in
        let b := set_terminator t b in
        let b := set_State BackgroundProcessStateRunning b in
        (None, b, w)
  end.

(** The envelope is a copy of the embedded struct; the manager is returned
    as the body leaves it. *)
Definition getStatusLocal (b : BackgroundManager P)
    : result bytes * BackgroundManager P :=
  let backgroundStatus := Status b in
  let backgroundStatus :=
    if State backgroundStatus =? ""
    then with_State BackgroundProcessStateCompleted backgroundStatus
    else backgroundStatus in
  let backgroundStatus :=
    match lastError b with
    | Some e => with_LastErrorMessage (Error e) backgroundStatus
    | None => backgroundStatus
    end in
  (GetProcessStatus backgroundStatus (Process b), b).

(** [None]: nil dereference of [clusterAwareOptions]. *)
Definition getStatusFromCluster (b : BackgroundManager P) (w : World B)
    : option (option bytes * option error * World B) :=
  match clusterAwareOptions b with
  | None => None
  | Some o =>
    Some (
      let '(r, bk) := GetRaw (StatusDocID o) (bucket w) in
      let w := set_bucket bk w in
      match r with
      | Err err =>
          if IsDocNotFoundError err then (None, None, w) else (None, Some err, w)
      | Ok (status, statusCas) =>
          match JSONUnmarshal_map status with
          | Err err => (None, Some err, w)
          | Ok clusterStatus =>
              let '(clusterState, ok) := assertString (clusterStatus !! "status") in
              if ok && negb (clusterState =? BackgroundProcessStateCompleted)
                    && negb (clusterState =? BackgroundProcessStateStopped)
                    && negb (clusterState =? BackgroundProcessStateError)
              then
                let '(r, bk) := GetRaw (HeartbeatDocID o) (bucket w) in
                let w := set_bucket bk w in
                match r with
                | Err err =>
                    if IsDocNotFoundError err then
                      let clusterStatus :=
                        <["status" := JString BackgroundProcessStateStopped]>
                          clusterStatus in
                      match JSONMarshal_map clusterStatus with
                      | Err err => (None, Some err, w)
                      | Ok status =>
                          let '(_, bk) := WriteCas (StatusDocID o) 0 0 statusCas
                                            status (bucket w) in
                          (Some status, None, set_bucket bk w)
                      end
                    else (Some status, Some err, w)
                | Ok _ => (Some status, None, w)
                end
              else (Some status, None, w)
          end
      end)
  end.

Definition GetStatus (b : BackgroundManager P) (w : World B)
    : option (option bytes * option error * World B) :=
  if isClusterAware b then
    match getStatusFromCluster b w with
    | None => None
    | Some (status, err, w) =>
        match err with
        | Some e => Some (None, Some e, w)
        | None =>
            match status with
            | None =>
                match fst (getStatusLocal b) with
                | Ok s => Some (Some s, None, w)
                | Err e => Some (None, Some e, w)
                end
            | Some s => Some (Some s, None, w)
            end
        end
    end
  else
    match fst (getStatusLocal b) with
    | Ok s => Some (Some s, None, w)
    | Err e => Some (None, Some e, w)
    end.

Definition resetStatus (b : BackgroundManager P) : BackgroundManager P :=
  let b := set_lastError None b in
  let b := set_Status (with_LastErrorMessage "" (Status b)) b in
  set_Process (ResetStatus (Process b)) b.

Definition markStop (b : BackgroundManager P) (w : World B)
    : option error * BackgroundManager P * World B :=
  match clusterAwareOptions b with
  | Some o =>
      let '(r, bk) := GetRaw (HeartbeatDocID o) (bucket w) in
      let w := set_bucket bk w in
      match r with
      | Err err =>
          if IsDocNotFoundError err then (Some processAlreadyStoppedErr, b, w)
          else (Some (HTTPError StatusInternalServerError
                        ("Unable to verify whether a process is running: "
                         +:+ Error err)), b, w)
      | Ok _ =>
          let '(err, bk) := BucketSet (HeartbeatDocID o)
                              BackgroundManagerHeartbeatExpirySecs
                              (mkHeartbeatDoc true) (bucket w) in
          let w := set_bucket bk w in
          match err with
          | Some err =>
              (Some (HTTPError StatusInternalServerError
                       ("Failed to mark process as stopping: " +:+ Error err)), b, w)
          | None =>
              let b :=
                if State (Status b) =? BackgroundProcessStateRunning
                then set_State BackgroundProcessStateStopping b
                else b in
              (None, b, w)
          end
      end
  | None =>
      if State (Status b) =? BackgroundProcessStateStopping
      then (Some (HTTPError StatusServiceUnavailable "Process already stopping"), b, w)
      else if (State (Status b) =? BackgroundProcessStateCompleted)
              || (State (Status b) =? BackgroundProcessStateStopped)
      then (Some processAlreadyStoppedErr, b, w)
      else (None, set_State BackgroundProcessStateStopping b, w)
  end.

Definition Stop (b : BackgroundManager P) (w : World B)
    : option error * BackgroundManager P * World B :=
  let '(err, b, w) := markStop b w in
  match err with
  | Some e => (Some e, b, w)
  | None => (None, b, Terminate b w)
  end.

(** Modelled from the spec: [base.RetryLoop] with the sleeper of
    [base.CreateSleeperFunc(5, 100)] ("Retry with bounded backoff: 5
    attempts"); the sleeps are not modelled. A worker that still asks for a
    retry at the last attempt leaves its error, or the loop's own. *)
Fixpoint RetryLoop (attempts : nat)
    (worker : World B -> bool * option error * World B) (w : World B)
    : option error * World B :=
  match attempts with
  | O => (Some (Failure "RetryLoop giving up"), w)
  | S n =>
      let '(shouldRetry, err, w) := worker w in
      if negb shouldRetry then (err, w)
      else
        match n with
        | O => (Some (default (Failure "RetryLoop giving up") err), w)
        | S _ => RetryLoop n worker w
        end
  end.

Definition UpdateStatusClusterAware (b : BackgroundManager P) (w : World B)
    : option error * World B :=
  match clusterAwareOptions b with
  | None => (None, w)
  | Some o =>
      RetryLoop 5
        (fun w =>
           match fst (getStatusLocal b) with
           | Err err => (true, Some err, w)
           | Ok status =>
               let '(err, bk) := SetRaw (StatusDocID o) 0 status (bucket w) in
               match err with
               | Some err => (true, Some err, set_bucket bk w)
               | None => (false, None, set_bucket bk w)
               end
           end) w
  end.

Definition set_lastSuccessfulHeartbeatUnix (v : Z) (b : BackgroundManager P) :=
  match clusterAwareOptions b with
  | Some o => set_clusterAwareOptions (Some (mkClusterAwareOptions (processSuffix o) v)) b
  | None => b
  end.

(** [None]: nil dereference of [clusterAwareOptions]. *)
Definition UpdateHeartbeatDocClusterAware (b : BackgroundManager P) (w : World B)
    : option (option error * BackgroundManager P * World B) :=
  match clusterAwareOptions b with
  | None => None
  | Some o =>
    Some (
      let '(r, bk) := GetAndTouchRaw (HeartbeatDocID o)
                        BackgroundManagerHeartbeatExpirySecs (bucket w) in
      let w := set_bucket bk w in
      match r with
      | Err err =>
          if IsDocNotFoundError err && IsClosed (terminator b) w then (None, b, w)
          else if (Sub (clock w) (Unix (lastSuccessfulHeartbeatUnix o))
                   >? BackgroundManagerHeartbeatExpirySecs
                      - BackgroundManagerHeartbeatIntervalSecs)%Z
          then (Some err, b, w)
          else (None, b, w)
      | Ok (statusRaw, _) =>
          match JSONUnmarshal_HeartbeatDoc statusRaw with
          | (_, Some err) => (Some err, b, w)
          | (status, None) =>
              let '(b, w) :=
                if ShouldStop status
                then let '(_, b, w) := Stop b w in (b, w)
                else (b, w) in
              (None, set_lastSuccessfulHeartbeatUnix (nowUnix w) b, w)
          end
      end)
  end.

(** The synchronous part of [Start]; the goroutines it starts are recorded
    in the world and run as the functions below. *)
Definition Start (options : gmap string Value) (b : BackgroundManager P) (w : World B)
    : option (option error * BackgroundManager P * World B) :=
  let '(err, b, w) := markStart b w in
  match err with
  | Some err => Some (Some err, b, w)
  | None =>
      let '(processClusterStatus, err, w) :=
        match clusterAwareOptions b with
        | Some o =>
            let '(r, bk) := GetRaw (StatusDocID o) (bucket w) in
            match r with
            | Ok (v, _) => (Some v, None, set_bucket bk w)
            | Err err =>
                if negb (IsDocNotFoundError err)
                then (None, Some (Wrap err "Failed to get current process status"),
                      set_bucket bk w)
                else (None, None, set_bucket bk w)
            end
        | None => (None, None, w)
        end in
      match err with
      | Some err => Some (Some err, b, w)
      | None =>
          let b := resetStatus b in
          let b := set_Status (with_StartTime (clock w) (Status b)) b in
          match Init options processClusterStatus (Process b) w with
          | None => None
          | Some (Some err, p, w) => Some (Some err, set_Process p b, w)
          | Some (None, p, w) =>
              let b := set_Process p b in
              let w := if isClusterAware b then spawn StatusPublisher w else w in
              let w := spawn (RunTask options) w in
              let w := if isClusterAware b
                       then snd (UpdateStatusClusterAware b w) else w in
              Some (None, b, w)
          end
      end
  end.

(** One tick of the heartbeat renewer of [markStart]. *)
Definition heartbeatTick (b : BackgroundManager P) (w : World B)
    : option (BackgroundManager P * World B) :=
  match UpdateHeartbeatDocClusterAware b w with
  | None => None
  | Some (Some err, b, w) => Some (SetError err b w)
  | Some (None, b, w) => Some (b, w)
  end.

(** One tick of the status publisher of [Start]. *)
Definition statusTick (b : BackgroundManager P) (w : World B) : World B :=
  snd (UpdateStatusClusterAware b w).

(** The run task of [Start], after [Process.Run] has returned [err]:
    the error is recorded, the terminator closed, the state promoted under
    the lock, and the final status published. *)
Definition runTask_recordError (err : option error) (b : BackgroundManager P)
    (w : World B) : BackgroundManager P * World B :=
  match err with
  | Some err => SetError err b w
  | None => (b, w)
  end.

Definition runTask_promote (b : BackgroundManager P) : BackgroundManager P :=
  if State (Status b) =? BackgroundProcessStateStopping
  then set_State BackgroundProcessStateStopped b
  else if negb (State (Status b) =? BackgroundProcessStateError)
  then set_State BackgroundProcessStateCompleted b
  else b.

Definition runTask_publish (b : BackgroundManager P) (w : World B) : World B :=
  match clusterAwareOptions b with
  | Some o =>
      let '(_, w) := UpdateStatusClusterAware b w in
      let '(_, bk) := Delete (HeartbeatDocID o) (bucket w) in
      set_bucket bk w
  | None => w
  end.

Definition runTask_afterRun (err : option error) (b : BackgroundManager P)
    (w : World B) : BackgroundManager P * World B :=
  let '(b, w) := runTask_recordError err b w in
  let w := Terminate b w in
  let b := runTask_promote b in
  (b, runTask_publish b w).

(** The run task as a whole, run to its end without another goroutine in
    between: what a concurrent [Stop] or heartbeat does while [Run] works
    reaches the tail through the world and the manager that are given to
    [runTask_afterRun], which is stated for any of them. *)
Definition runTask (options : gmap string Value) (b : BackgroundManager P)
    (w : World B) : option (BackgroundManager P * World B * list RunEvent) :=
  let updateStatusClusterAwareCallback : updateStatusCallbackFunc B P :=
    fun p w => UpdateStatusClusterAware (set_Process p b) w in
  match Run options updateStatusClusterAwareCallback (terminator b) (Process b) w with
  | None => None
  | Some r =>
      let '(b, w) := runTask_afterRun (run_err r)
                       (set_Process (run_process r) b) (run_world r) in
      Some (b, w, run_events r)
  end.
End Manager.

(** ** The processes *)

Record ResyncManager : Type := mkResyncManager {
  DocsProcessed : Z;
  DocsChanged : Z
}.

Record AttachmentCompactionManager : Type := mkAttachmentCompactionManager {
  MarkedAttachments : Z;
  PurgedAttachments : Z;
  CompactID : string;
  Phase : string;
  dryRun : bool
}.

Definition set_MarkedAttachments (n : Z) (a : AttachmentCompactionManager) :=
  mkAttachmentCompactionManager n (PurgedAttachments a) (CompactID a) (Phase a) (dryRun a).
Definition set_PurgedAttachments (n : Z) (a : AttachmentCompactionManager) :=
  mkAttachmentCompactionManager (MarkedAttachments a) n (CompactID a) (Phase a) (dryRun a).
Definition set_CompactID (s : string) (a : AttachmentCompactionManager) :=
  mkAttachmentCompactionManager (MarkedAttachments a) (PurgedAttachments a) s (Phase a)
    (dryRun a).
Definition set_dryRun (d : bool) (a : AttachmentCompactionManager) :=
  mkAttachmentCompactionManager (MarkedAttachments a) (PurgedAttachments a) (CompactID a)
    (Phase a) d.

Definition SetPhase (phase : string) (a : AttachmentCompactionManager) :=
  mkAttachmentCompactionManager (MarkedAttachments a) (PurgedAttachments a) (CompactID a)
    phase (dryRun a).

(** How a case of the phase switch ends: with a [return], or by leaving the
    switch. *)
Inductive flow : Type :=
  | Return (err : option error)
  | LeaveSwitch.

Section Processes.
Context {B : Type} `{!Bucket B} `{!JSONCodec} `{!DatabaseOps B}.

(** *** Resync *)

Definition ResyncManager_Init (options : gmap string Value)
    (clusterStatus : option bytes) (r : ResyncManager) (w : World B)
    : option (option error * ResyncManager * World B) :=
  Some (None, r, w).

Definition ResyncManager_Run (options : gmap string Value)
    (persistClusterStatusCallback : updateStatusCallbackFunc B ResyncManager)
    (terminator : nat) (r : ResyncManager) (w : World B)
    : option (RunResult ResyncManager) :=
  match options !! "database", options !! "regenerateSequences" with
  | Some VDatabase, Some (VBool regenerateSequences) =>
      let '(docsProcessed, docsChanged, err, w) :=
        UpdateAllDocChannels regenerateSequences terminator
          (DocsProcessed r, DocsChanged r) w in
      let r := mkResyncManager docsProcessed docsChanged in
      (* deferred: CompareAndSwapUint32(&database.State, DBResyncing, DBOffline) *)
      let w := if (DatabaseState w =? DBResyncing)%Z
               then set_DatabaseState DBOffline w else w in
      Some (mkRunResult err r w [EvUpdateAllDocChannels err])
  | _, _ => None
  end.

Definition ResyncManager_ResetStatus (r : ResyncManager) : ResyncManager :=
  mkResyncManager 0 0.

Definition ResyncManager_GetProcessStatus
    (backgroundManagerStatus : BackgroundManagerStatus) (r : ResyncManager)
    : result bytes :=
  JSONMarshal_ResyncManagerResponse
    (mkResyncManagerResponse backgroundManagerStatus (DocsChanged r) (DocsProcessed r)).

#[global] Instance ResyncManager_process : BackgroundManagerProcessI B ResyncManager := {
  Init := ResyncManager_Init;
  Run := ResyncManager_Run;
  GetProcessStatus := ResyncManager_GetProcessStatus;
  ResetStatus := ResyncManager_ResetStatus
}.

(** *** Attachment compaction *)

Definition newRunInit (options : gmap string Value)
    (a : AttachmentCompactionManager) (w : World B)
    : option error * AttachmentCompactionManager * World B :=
  let '(r, w) := NewRandom w in
  match r with
  | Err err => (Some err, a, w)
  | Ok uniqueUUID =>
      let '(dryRun, _) := assertBool (options !! "dryRun") in
      let a := set_dryRun dryRun a in
      let a := set_CompactID uniqueUUID a in
      (None, a, w)
  end.

Definition AttachmentCompactionManager_Init (options : gmap string Value)
    (clusterStatus : option bytes) (a : AttachmentCompactionManager) (w : World B)
    : option (option error * AttachmentCompactionManager * World B) :=
  match options !! "database" with
  | Some VDatabase =>
      let w := set_CompactionAttachmentStartTime (nowUnix w) w in
      match clusterStatus with
      | Some clusterStatus =>
          let '(attachmentResponseStatus, err) :=
            JSONUnmarshal_AttachmentManagerResponse clusterStatus in
          let '(reset, ok) := assertBool (options !! "reset") in
          if (State (amr_Status attachmentResponseStatus)
                =? BackgroundProcessStateCompleted)
             || bool_decide (is_Some err) || (reset && ok)
          then Some (newRunInit options a w)
          else
            let a := set_CompactID (amr_CompactID attachmentResponseStatus) a in
            let a := SetPhase (amr_Phase attachmentResponseStatus) a in
            let a := set_dryRun (amr_DryRun attachmentResponseStatus) a in
            let a := set_MarkedAttachments
                       (amr_MarkedAttachments attachmentResponseStatus) a in
            let a := set_PurgedAttachments
                       (amr_PurgedAttachments attachmentResponseStatus) a in
            Some (None, a, w)
      | None => Some (newRunInit options a w)
      end
  | _ => None
  end.

Section Run.
Variable persistClusterStatusCallback
  : updateStatusCallbackFunc B AttachmentCompactionManager.
Variable terminator : nat.

(** The local closure of [Run]: the callback's error is only logged. *)
Definition persistClusterStatus (a : AttachmentCompactionManager) (w : World B)
    (tr : list RunEvent) : World B * list RunEvent :=
  let '(_, w) := persistClusterStatusCallback a w in
  (w, tr ++ [EvPersist (Phase a)]).

Definition caseCleanup (a : AttachmentCompactionManager) (w : World B)
    (tr : list RunEvent)
    : flow * AttachmentCompactionManager * World B * list RunEvent :=
  let a := SetPhase "cleanup" a in
  let tr := tr ++ [EvSetPhase "cleanup"] in
  let '(w, tr) := persistClusterStatus a w tr in
  let '(err, w) := Cleanup (CompactID a) terminator w in
  let tr := tr ++ [EvCleanup err (IsClosed terminator w)] in
  if bool_decide (is_Some err) || IsClosed terminator w
  then (Return err, a, w, tr)
  else (LeaveSwitch, a, w, tr).

Definition caseSweep (a : AttachmentCompactionManager) (w : World B)
    (tr : list RunEvent)
    : flow * AttachmentCompactionManager * World B * list RunEvent :=
  let a := SetPhase "sweep" a in
  let tr := tr ++ [EvSetPhase "sweep"] in
  let '(w, tr) := persistClusterStatus a w tr in
  let '(purged, err, w) :=
    Sweep (CompactID a) (dryRun a) terminator (PurgedAttachments a) w in
  let a := set_PurgedAttachments purged a in
  let tr := tr ++ [EvSweep err (IsClosed terminator w)] in
  if bool_decide (is_Some err) || IsClosed terminator w
  then (Return err, a, w, tr)
  else caseCleanup a w tr.

Definition caseMark (a : AttachmentCompactionManager) (w : World B)
    (tr : list RunEvent)
    : flow * AttachmentCompactionManager * World B * list RunEvent :=
  let a := SetPhase "mark" a in
  let tr := tr ++ [EvSetPhase "mark"] in
  let '(w, tr) := persistClusterStatus a w tr in
  let '(marked, err, w) :=
    Mark (CompactID a) terminator (MarkedAttachments a) w in
  let a := set_MarkedAttachments marked a in
  let tr := tr ++ [EvMark err (IsClosed terminator w)] in
  if bool_decide (is_Some err) || IsClosed terminator w
  then (Return err, a, w, tr)
  else caseSweep a w tr.

Definition AttachmentCompactionManager_Run (options : gmap string Value)
    (a : AttachmentCompactionManager) (w : World B)
    : option (RunResult AttachmentCompactionManager) :=
  match options !! "database" with
  | Some VDatabase =>
      let '(fl, a, w, tr) :=
        if (Phase a =? "mark") || (Phase a =? "") then caseMark a w []
        else if Phase a =? "sweep" then caseSweep a w []
        else if Phase a =? "cleanup" then caseCleanup a w []
        else (LeaveSwitch, a, w, []) in
      let '(err, a, tr) :=
        match fl with
        | Return err => (err, a, tr)
        | LeaveSwitch => (None, SetPhase "" a, tr ++ [EvSetPhase ""])
        end in
      (* deferred: persistClusterStatus() *)
      let '(w, tr) := persistClusterStatus a w tr in
      Some (mkRunResult err a w tr)
  | _ => None
  end.
End Run.

Definition AttachmentCompactionManager_GetProcessStatus
    (status : BackgroundManagerStatus) (a : AttachmentCompactionManager)
    : result bytes :=
  JSONMarshal_AttachmentManagerResponse
    (mkAttachmentManagerResponse status (MarkedAttachments a) (PurgedAttachments a)
       (CompactID a) (Phase a) (dryRun a)).

Definition AttachmentCompactionManager_ResetStatus (a : AttachmentCompactionManager)
    : AttachmentCompactionManager :=
  let a := set_MarkedAttachments 0 a in
  let a := set_PurgedAttachments 0 a in
  set_dryRun false a.

#[global] Instance AttachmentCompactionManager_process
    : BackgroundManagerProcessI B AttachmentCompactionManager := {
  Init := AttachmentCompactionManager_Init;
  Run options cb t := AttachmentCompactionManager_Run cb t options;
  GetProcessStatus := AttachmentCompactionManager_GetProcessStatus;
  ResetStatus := AttachmentCompactionManager_ResetStatus
}.

(** [NewResyncManager] and [NewAttachmentCompactionManager]: each allocates
    its terminator. *)
Definition NewResyncManager (w : World B) : BackgroundManager ResyncManager * World B :=
  let '(t, w) := NewSafeTerminator w in
  (mkBackgroundManager (mkBackgroundManagerStatus "" 0 "") None t None
     (mkResyncManager 0 0), w).

Definition NewAttachmentCompactionManager (w : World B)
    : BackgroundManager AttachmentCompactionManager * World B :=
  let '(t, w) := NewSafeTerminator w in
  (mkBackgroundManager (mkBackgroundManagerStatus "" 0 "") None t
     (Some (mkClusterAwareOptions "compact" 0))
     (mkAttachmentCompactionManager 0 0 "" "" false), w).
End Processes.

(** ** The phase ladder of attachment compaction, as a trace *)

(** The phases a run goes through when it starts with [phase] in the phase
    field. *)
Definition ladder_from (phase : string) : list string :=
  if (phase =? "mark") || (phase =? "") then ["mark"; "sweep"; "cleanup"]
  else if phase =? "sweep" then ["sweep"; "cleanup"]
  else if phase =? "cleanup" then ["cleanup"]
  else [].

Definition work (p : string) (err : option error) (closed : bool) : RunEvent :=
  if p =? "mark" then EvMark err closed
  else if p =? "sweep" then EvSweep err closed
  else EvCleanup err closed.

(** One phase: the phase field is set, the status persisted, the work done. *)
Definition stage (p : string) (err : option error) (closed : bool) : list RunEvent :=
  [EvSetPhase p; EvPersist p; work p err closed].

(** [ladder_run phases tr err final]: [tr] is a run over [phases] that
    returns [err] and leaves [final] in the phase field. A phase that fails
    or finds the terminator closed ends the run at once (the deferred persist
    is all that follows); otherwise the next phase is entered; after the last
    one the phase field is emptied, the status persisted and nil returned. *)
Inductive ladder_run : list string -> list RunEvent -> option error -> string -> Prop :=
  | ladder_return p rest err closed :
      is_Some err \/ closed = true ->
      ladder_run (p :: rest) (stage p err closed ++ [EvPersist p]) err p
  | ladder_next p q rest tr err final :
      ladder_run (q :: rest) tr err final ->
      ladder_run (p :: q :: rest) (stage p None false ++ tr) err final
  | ladder_complete p :
      ladder_run [p] (stage p None false ++ [EvSetPhase ""; EvPersist ""]) None "".

(** The same for the switch alone, before what [Run] does on leaving it. *)
Inductive ladder_cases : list string -> list RunEvent -> flow -> string -> Prop :=
  | cases_return p rest err closed :
      is_Some err \/ closed = true ->
      ladder_cases (p :: rest) (stage p err closed) (Return err) p
  | cases_next p q rest tr fl final :
      ladder_cases (q :: rest) tr fl final ->
      ladder_cases (p :: q :: rest) (stage p None false ++ tr) fl final
  | cases_leave p :
      ladder_cases [p] (stage p None false) LeaveSwitch p.

(** ** The phase ladder, as the calls it makes *)

Section LadderExecution.
Context {B : Type} `{!DatabaseOps B}.
Variable persistClusterStatusCallback
  : updateStatusCallbackFunc B AttachmentCompactionManager.
Variable terminator : nat.

(** The call of the phase function of phase [p] on the process [a] in the
    world [w]: [Mark] and [Sweep] are given the compact ID and the counter
    they count in, [Sweep] the dry-run flag too, and the process takes the
    counter as they leave it. *)
Definition phase_call (p : string) (a : AttachmentCompactionManager) (w : World B)
    : AttachmentCompactionManager * option error * World B :=
  if p =? "mark" then
    let '(marked, err, w) := Mark (CompactID a) terminator (MarkedAttachments a) w in
    (set_MarkedAttachments marked a, err, w)
  else if p =? "sweep" then
    let '(purged, err, w) :=
      Sweep (CompactID a) (dryRun a) terminator (PurgedAttachments a) w in
    (set_PurgedAttachments purged a, err, w)
  else
    let '(err, w) := Cleanup (CompactID a) terminator w in
    (a, err, w).

(** [ladder_exec phases a w tr err a' w']: started on the process [a] in the
    world [w], a run over [phases] does [tr], returns [err] and leaves the
    process [a'] and the world [w']. Each phase writes its name to the phase
    field, calls the status callback on the process so updated, and calls its
    phase function in the world the callback left. A phase function that
    returns an error, or after which the terminator is closed, ends the run
    with its error, the callback being called once more; otherwise the next
    phase goes on from the process and the world it left; after the last one
    the phase field is emptied, the callback called, and nil returned. *)
Inductive ladder_exec :
    list string -> AttachmentCompactionManager -> World B -> list RunEvent ->
    option error -> AttachmentCompactionManager -> World B -> Prop :=
  | exec_return p rest a w a2 err w2 :
      phase_call p (SetPhase p a) (snd (persistClusterStatusCallback (SetPhase p a) w))
      = (a2, err, w2) ->
      is_Some err \/ IsClosed terminator w2 = true ->
      ladder_exec (p :: rest) a w
        (stage p err (IsClosed terminator w2) ++ [EvPersist p]) err
        a2 (snd (persistClusterStatusCallback a2 w2))
  | exec_next p q rest a w a2 w2 tr err a' w' :
      phase_call p (SetPhase p a) (snd (persistClusterStatusCallback (SetPhase p a) w))
      = (a2, None, w2) ->
      IsClosed terminator w2 = false ->
      ladder_exec (q :: rest) a2 w2 tr err a' w' ->
      ladder_exec (p :: q :: rest) a w (stage p None false ++ tr) err a' w'
  | exec_complete p a w a2 w2 :
      phase_call p (SetPhase p a) (snd (persistClusterStatusCallback (SetPhase p a) w))
      = (a2, None, w2) ->
      IsClosed terminator w2 = false ->
      ladder_exec [p] a w (stage p None false ++ [EvSetPhase ""; EvPersist ""]) None
        (SetPhase "" a2) (snd (persistClusterStatusCallback (SetPhase "" a2) w2)).
End LadderExecution.

(** ** Tombstone compaction

    [database.CompactState] is passed beside the world, and [database.Compact]
    and the encoding of the response are parameters of the section. *)

Record TombstoneCompactionManager : Type := mkTombstoneCompactionManager {
  PurgedDocCount : Z
}.

Record TombstoneManagerResponse : Type := mkTombstoneManagerResponse {
  tmr_Status : BackgroundManagerStatus;
  tmr_DocsPurged : Z
}.

Section Tombstone.
Context {B : Type}.
(** [database.Compact(skipRunningStateCheck, callback, terminator)]: it is
    given the purged count and returns it as its callback left it. *)
Variable Compact : bool -> nat -> Z -> World B * Z -> Z * option error * (World B * Z).
Variables DBCompactRunning DBCompactNotRunning : Z.
Variable JSONMarshal_TombstoneManagerResponse : TombstoneManagerResponse -> result bytes.

Definition TombstoneCompactionManager_Init (options : gmap string Value)
    (clusterStatus : option bytes) (t : TombstoneCompactionManager) (w : World B)
    : option (option error * TombstoneCompactionManager * World B) :=
  match options !! "database" with
  | Some VDatabase => Some (None, t, set_CompactionAttachmentStartTime (nowUnix w) w)
  | _ => None
  end.

Definition TombstoneCompactionManager_Run (options : gmap string Value)
    (terminator : nat) (t : TombstoneCompactionManager) (w : World B) (CompactState : Z)
    : option (option error * TombstoneCompactionManager * (World B * Z)) :=
  match options !! "database" with
  | Some VDatabase =>
      let '(docsPurged, err, (w, CompactState)) :=
        Compact true terminator (PurgedDocCount t) (w, CompactState) in
      let t := mkTombstoneCompactionManager docsPurged in
      (* deferred: CompareAndSwapUint32(&database.CompactState,
                                        DBCompactRunning, DBCompactNotRunning) *)
      let CompactState := if (CompactState =? DBCompactRunning)%Z
                          then DBCompactNotRunning else CompactState in
      Some (err, t, (w, CompactState))
  | _ => None
  end.

Definition TombstoneCompactionManager_GetProcessStatus
    (backgroundManagerStatus : BackgroundManagerStatus) (t : TombstoneCompactionManager)
    : result bytes :=
  JSONMarshal_TombstoneManagerResponse
    (mkTombstoneManagerResponse backgroundManagerStatus (PurgedDocCount t)).

Definition TombstoneCompactionManager_ResetStatus (t : TombstoneCompactionManager)
    : TombstoneCompactionManager :=
  mkTombstoneCompactionManager 0.

Definition NewTombstoneCompactionManager (w : World B)
    : BackgroundManager TombstoneCompactionManager * World B :=
  let '(t, w) := NewSafeTerminator w in
  (mkBackgroundManager (mkBackgroundManagerStatus "" 0 "") None t None
     (mkTombstoneCompactionManager 0), w).
End Tombstone.

(** ** Vocabulary of the properties *)

(** [w'] differs from [w] in its bucket at most. *)
Definition sameOutsideBucket {B : Type} (w w' : World B) : Prop :=
  w' = set_bucket (bucket w') w.

(** The states in which no run is under way. *)
Definition terminalState (s : string) : Prop :=
  s = BackgroundProcessStateStopped \/ s = BackgroundProcessStateCompleted
  \/ s = BackgroundProcessStateError.

(** Every terminator of the heap was allocated by [NewSafeTerminator]. *)
Definition allocated {B : Type} (w : World B) : Prop :=
  forall t, is_Some (terminators w !! t) -> (t < nextTerminator w)%nat.

(** ** Reference instances of the collaborators

    An in-memory bucket with injected faults, a codec for flat JSON objects
    and scripted phase functions: the instances at which the manager is
    evaluated below. *)

Module Ref.

Definition quote : string := String "034"%char "".

(** *** Flat JSON: one object whose values are strings without escapes,
    integers, booleans or null. Times are written as integers. *)

Definition print_value (v : json) : result bytes :=
  match v with
  | JNull => Ok "null"
  | JBool true => Ok "true"
  | JBool false => Ok "false"
  | JNumber n => Ok (pretty n)
  | JString s => Ok (quote +:+ s +:+ quote)
  | JArray _ | JObject _ => Err (Failure "json: unsupported value")
  end.

Fixpoint print_fields (fields : list (string * json)) : result bytes :=
  match fields with
  | [] => Ok ""
  | (k, v) :: rest =>
      match print_value v, print_fields rest with
      | Ok pv, Ok pr =>
          Ok (quote +:+ k +:+ quote +:+ ":" +:+ pv
              +:+ (match rest with [] => "" | _ => "," end) +:+ pr)
      | Err e, _ => Err e
      | _, Err e => Err e
      end
  end.

Definition print_object (fields : list (string * json)) : result bytes :=
  match print_fields fields with
  | Ok s => Ok ("{" +:+ s +:+ "}")
  | Err e => Err e
  end.

Definition digit (c : ascii) : option Z :=
  let n := Z.of_nat (nat_of_ascii c) in
  if ((48 <=? n) && (n <=? 57))%Z then Some (n - 48)%Z else None.

Fixpoint parse_digits (s : string) (acc : Z) : option Z :=
  match s with
  | EmptyString => Some acc
  | String c rest =>
      match digit c with
      | Some d => parse_digits rest (10 * acc + d)%Z
      | None => None
      end
  end.

Definition parse_literal (s : string) : option json :=
  if s =? "true" then Some (JBool true)
  else if s =? "false" then Some (JBool false)
  else if s =? "null" then Some JNull
  else
    match s with
    | EmptyString => None
    | String "-"%char (String c rest) =>
        (fun n => JNumber (- n)) <$> parse_digits (String c rest) 0
    | _ => JNumber <$> parse_digits s 0
    end.

(** The parser is an automaton over the characters of the text. *)
Inductive pstate : Type :=
  | PStart
  | PKeyOrEnd
  | PKeyOpen
  | PKey (acc : string)
  | PColon (k : string)
  | PValue (k : string)
  | PStr (k acc : string)
  | PLit (k acc : string)
  | PAfter
  | PDone
  | PFail.

Definition snoc (s : string) (c : ascii) : string := s +:+ String c "".

Definition close_literal (k acc : string) (fields : list (string * json))
    (next : pstate) : pstate * list (string * json) :=
  match parse_literal acc with
  | Some v => (next, fields ++ [(k, v)])
  | None => (PFail, fields)
  end.

Definition pstep (st : pstate) (fields : list (string * json)) (c : ascii)
    : pstate * list (string * json) :=
  let sees (x : string) := (String c "" =? x) in
  match st with
  | PStart => if sees "{" then (PKeyOrEnd, fields) else (PFail, fields)
  | PKeyOrEnd =>
      if sees quote then (PKey "", fields)
      else if sees "}" then (PDone, fields) else (PFail, fields)
  | PKeyOpen => if sees quote then (PKey "", fields) else (PFail, fields)
  | PKey acc => if sees quote then (PColon acc, fields) else (PKey (snoc acc c), fields)
  | PColon k => if sees ":" then (PValue k, fields) else (PFail, fields)
  | PValue k =>
      if sees quote then (PStr k "", fields)
      else if sees "," || sees "}" then (PFail, fields)
      else (PLit k (String c ""), fields)
  | PStr k acc =>
      if sees quote then (PAfter, fields ++ [(k, JString acc)])
      else (PStr k (snoc acc c), fields)
  | PLit k acc =>
      if sees "," then close_literal k acc fields PKeyOpen
      else if sees "}" then close_literal k acc fields PDone
      else (PLit k (snoc acc c), fields)
  | PAfter =>
      if sees "," then (PKeyOpen, fields)
      else if sees "}" then (PDone, fields) else (PFail, fields)
  | PDone => (PFail, fields)
  | PFail => (PFail, fields)
  end.

Fixpoint prun (s : string) (st : pstate) (fields : list (string * json))
    : pstate * list (string * json) :=
  match s with
  | EmptyString => (st, fields)
  | String c rest => let '(st, fields) := pstep st fields c in prun rest st fields
  end.

Definition parse_object (s : bytes) : result (list (string * json)) :=
  match prun s PStart [] with
  | (PDone, fields) => Ok fields
  | _ => Err (Failure "json: syntax error")
  end.

(** The last occurrence of a key wins. *)
Definition field (k : string) (fields : list (string * json)) : option json :=
  snd <$> List.find (fun kv => fst kv =? k) (rev fields).

Definition typeError : error := Failure "json: cannot unmarshal into Go struct field".

Definition field_string (k : string) (fields : list (string * json))
    : string * option error :=
  match field k fields with
  | None | Some JNull => ("", None)
  | Some (JString s) => (s, None)
  | Some _ => ("", Some typeError)
  end.

Definition field_int (k : string) (fields : list (string * json)) : Z * option error :=
  match field k fields with
  | None | Some JNull => (0%Z, None)
  | Some (JNumber n) => (n, None)
  | Some _ => (0%Z, Some typeError)
  end.

Definition field_bool (k : string) (fields : list (string * json))
    : bool * option error :=
  match field k fields with
  | None | Some JNull => (false, None)
  | Some (JBool b) => (b, None)
  | Some _ => (false, Some typeError)
  end.

(** The first error of a decoding, as [json.Unmarshal] reports it. *)
Definition firstError (errs : list (option error)) : option error :=
  List.fold_right (fun e acc => match e with Some _ => e | None => acc end) None errs.

Definition unmarshal_map (s : bytes) : result (gmap string json) :=
  match parse_object s with
  | Ok fields => Ok (list_to_map (rev fields))
  | Err e => Err e
  end.

Definition marshal_map (m : gmap string json) : result bytes :=
  print_object (map_to_list m).

Definition unmarshal_HeartbeatDoc (s : bytes) : HeartbeatDoc * option error :=
  match parse_object s with
  | Ok fields =>
      let '(b, e) := field_bool "should_stop" fields in (mkHeartbeatDoc b, e)
  | Err e => (mkHeartbeatDoc false, Some e)
  end.

Definition marshal_HeartbeatDoc (d : HeartbeatDoc) : result bytes :=
  print_object [("should_stop", JBool (ShouldStop d))].

Definition status_fields (st : BackgroundManagerStatus) : list (string * json) :=
  [("status", JString (State st)); ("start_time", JNumber (StartTime st));
   ("last_error", JString (LastErrorMessage st))].

Definition marshal_AttachmentManagerResponse (r : AttachmentManagerResponse)
    : result bytes :=
  print_object
    (status_fields (amr_Status r)
     ++ [("marked_attachments", JNumber (amr_MarkedAttachments r));
         ("purged_attachments", JNumber (amr_PurgedAttachments r));
         ("compact_id", JString (amr_CompactID r))]
     ++ (if amr_Phase r =? "" then [] else [("phase", JString (amr_Phase r))])
     ++ (if amr_DryRun r then [("dry_run", JBool true)] else [])).

Definition marshal_ResyncManagerResponse (r : ResyncManagerResponse) : result bytes :=
  print_object
    (status_fields (rmr_Status r)
     ++ [("docs_changed", JNumber (rmr_DocsChanged r));
         ("docs_processed", JNumber (rmr_DocsProcessed r))]).

Definition unmarshal_AttachmentManagerResponse (s : bytes)
    : AttachmentManagerResponse * option error :=
  match parse_object s with
  | Ok fields =>
      let '(st, e1) := field_string "status" fields in
      let '(t, e2) := field_int "start_time" fields in
      let '(le, e3) := field_string "last_error" fields in
      let '(m, e4) := field_int "marked_attachments" fields in
      let '(p, e5) := field_int "purged_attachments" fields in
      let '(c, e6) := field_string "compact_id" fields in
      let '(ph, e7) := field_string "phase" fields in
      let '(d, e8) := field_bool "dry_run" fields in
      (mkAttachmentManagerResponse (mkBackgroundManagerStatus st t le) m p c ph d,
       firstError [e1; e2; e3; e4; e5; e6; e7; e8])
  | Err e =>
      (mkAttachmentManagerResponse (mkBackgroundManagerStatus "" 0 "") 0 0 "" "" false,
       Some e)
  end.

#[export] Instance codec : JSONCodec := {
  JSONUnmarshal_map := unmarshal_map;
  JSONMarshal_map := marshal_map;
  JSONUnmarshal_HeartbeatDoc := unmarshal_HeartbeatDoc;
  JSONUnmarshal_AttachmentManagerResponse := unmarshal_AttachmentManagerResponse;
  JSONMarshal_AttachmentManagerResponse := marshal_AttachmentManagerResponse;
  JSONMarshal_ResyncManagerResponse := marshal_ResyncManagerResponse
}.

(** *** An in-memory bucket. Each operation first consumes one entry of
    [faults]; [Some e] makes it fail with [e] and change nothing. A document
    is its body, its CAS and its expiry. *)
Record MemBucket : Type := mkMemBucket {
  docs : gmap string (bytes * Z * Z);
  casCounter : Z;
  faults : list (option error)
}.

Definition nextFault (bk : MemBucket) : option error * MemBucket :=
  match faults bk with
  | f :: rest => (f, mkMemBucket (docs bk) (casCounter bk) rest)
  | [] => (None, bk)
  end.

Definition store (k : string) (v : bytes) (exp : Z) (bk : MemBucket) : Z * MemBucket :=
  let cas := (casCounter bk + 1)%Z in
  (cas, mkMemBucket (<[k := (v, cas, exp)]> (docs bk)) cas (faults bk)).

Definition mem_GetRaw (k : string) (bk : MemBucket) : result (bytes * Z) * MemBucket :=
  let '(f, bk) := nextFault bk in
  match f with
  | Some e => (Err e, bk)
  | None =>
      match docs bk !! k with
      | Some (v, cas, _) => (Ok (v, cas), bk)
      | None => (Err DocNotFound, bk)
      end
  end.

Definition mem_WriteCas (k : string) (flags exp cas : Z) (v : bytes) (bk : MemBucket)
    : result Z * MemBucket :=
  let '(f, bk) := nextFault bk in
  match f with
  | Some e => (Err e, bk)
  | None =>
      match docs bk !! k with
      | Some (_, cas', _) =>
          if (cas =? cas')%Z
          then let '(c, bk) := store k v exp bk in (Ok c, bk)
          else (Err CasMismatch, bk)
      | None =>
          if (cas =? 0)%Z
          then let '(c, bk) := store k v exp bk in (Ok c, bk)
          else (Err DocNotFound, bk)
      end
  end.

Definition mem_SetRaw (k : string) (exp : Z) (v : bytes) (bk : MemBucket)
    : option error * MemBucket :=
  let '(f, bk) := nextFault bk in
  match f with
  | Some e => (Some e, bk)
  | None => (None, snd (store k v exp bk))
  end.

Definition mem_Set (k : string) (exp : Z) (d : HeartbeatDoc) (bk : MemBucket)
    : option error * MemBucket :=
  match marshal_HeartbeatDoc d with
  | Ok v => mem_SetRaw k exp v bk
  | Err e => (Some e, bk)
  end.

Definition mem_Delete (k : string) (bk : MemBucket) : option error * MemBucket :=
  let '(f, bk) := nextFault bk in
  match f with
  | Some e => (Some e, bk)
  | None =>
      match docs bk !! k with
      | Some _ => (None, mkMemBucket (delete k (docs bk)) (casCounter bk) (faults bk))
      | None => (Some DocNotFound, bk)
      end
  end.

Definition mem_GetAndTouchRaw (k : string) (exp : Z) (bk : MemBucket)
    : result (bytes * Z) * MemBucket :=
  let '(f, bk) := nextFault bk in
  match f with
  | Some e => (Err e, bk)
  | None =>
      match docs bk !! k with
      | Some (v, cas, _) =>
          (Ok (v, cas),
           mkMemBucket (<[k := (v, cas, exp)]> (docs bk)) (casCounter bk) (faults bk))
      | None => (Err DocNotFound, bk)
      end
  end.

#[export] Instance memBucket : Bucket MemBucket := {
  GetRaw := mem_GetRaw;
  WriteCas := mem_WriteCas;
  SetRaw := mem_SetRaw;
  BucketSet := mem_Set;
  Delete := mem_Delete;
  GetAndTouchRaw := mem_GetAndTouchRaw
}.

(** *** Scripted phase functions: each phase counts a fixed number of
    attachments; the phase named [stopDuring] sees the terminator closed by a
    concurrent [Stop] while it works. *)
Definition scripted (stopDuring : string) : DatabaseOps MemBucket := {|
  Mark _ t n w := ((n + 500)%Z, None, if stopDuring =? "mark" then Close t w else w);
  Sweep _ _ t n w := ((n + 120)%Z, None, if stopDuring =? "sweep" then Close t w else w);
  Cleanup _ t w := (None, if stopDuring =? "cleanup" then Close t w else w);
  UpdateAllDocChannels _ t n w :=
    ((fst n + 10)%Z, snd n, None, if stopDuring =? "resync" then Close t w else w);
  DBResyncing := 4;
  DBOffline := 0
|}.

Definition emptyBucket : MemBucket := mkMemBucket ∅ 0 [].

(** A world with an empty bucket, at [now] nanoseconds, where the coming
    UUIDs are [uuids]. *)
Definition world (now : Z) (uuids : list string) : World MemBucket :=
  mkWorld emptyBucket ∅ 0 now (Ok <$> uuids) 0 0 [].

Definition SyncPrefix : string := "_sync".

(** *** The inputs of the evaluations below *)

#[export] Instance ops : DatabaseOps MemBucket := scripted "".

Definition options_db : gmap string Value := {["database" := VDatabase]}.
Definition options_reset : gmap string Value := <["reset" := VBool true]> options_db.

Definition compactOptions : ClusterAwareBackgroundManagerOptions :=
  mkClusterAwareOptions "compact" 0.

(** A resync manager (local mode) in state [state]. *)
Definition resyncIn (state : string) : BackgroundManager ResyncManager :=
  mkBackgroundManager (mkBackgroundManagerStatus state 1700000000000000000 "") None 0
    None (mkResyncManager 10 0).

(** An attachment compaction manager (cluster mode) in state [state], whose
    process holds [a] and whose last successful heartbeat was at [beat]. *)
Definition compactionIn (state : string) (a : AttachmentCompactionManager) (beat : Z)
    : BackgroundManager AttachmentCompactionManager :=
  mkBackgroundManager (mkBackgroundManagerStatus state 1700000000000000000 "") None 0
    (Some (mkClusterAwareOptions "compact" beat)) a.

(** A world at [now] whose only terminator is [closed] and whose bucket
    answers its next operations with [faults]. *)
Definition worldWith (now : Z) (closed : bool) (faults : list (option error))
    (uuids : list string) : World MemBucket :=
  mkWorld (mkMemBucket ∅ 0 faults) {[0%nat := closed]} 1 now (Ok <$> uuids) 0 0 [].

Definition run_failed : error := Failure "scan failed".

Definition bucket_timeout : error := Failure "operation timed out".

Definition unwrap (r : result bytes) : bytes :=
  match r with Ok s => s | Err _ => "" end.

(** In memory after a run that was stopped during Sweep. *)
Definition stoppedInSweep : AttachmentCompactionManager :=
  mkAttachmentCompactionManager 500 120 "uuid-1" "sweep" false.

(** The status document a runner published while it was in Sweep. *)
Definition runningStatus : bytes :=
  unwrap (fst (getStatusLocal (compactionIn "running" stoppedInSweep 0))).

(** The bucket after the runner died: its status document says "running"
    and its heartbeat document has expired. *)
Definition deadRunBucket : MemBucket :=
  snd (mem_SetRaw (StatusDocID SyncPrefix compactOptions) 0 runningStatus emptyBucket).

Definition deadRunWorld : World MemBucket :=
  mkWorld deadRunBucket {[0%nat := false]} 1 1700000060000000000 [Ok "uuid-2"] 0 0 [].

Definition freshCompaction : BackgroundManager AttachmentCompactionManager :=
  mkBackgroundManager (mkBackgroundManagerStatus "" 0 "") None 0 (Some compactOptions)
    (mkAttachmentCompactionManager 0 0 "" "" false).

(** The callback a manager gives to [Run]. *)
Definition publish (b : BackgroundManager AttachmentCompactionManager)
    : updateStatusCallbackFunc MemBucket AttachmentCompactionManager :=
  fun p w => UpdateStatusClusterAware SyncPrefix (set_Process p b) w.

(** The node of the stopped run: STOPPED, "sweep" still in memory, and its
    last status in the bucket. *)
Definition stoppedManager : BackgroundManager AttachmentCompactionManager :=
  compactionIn "stopped" stoppedInSweep 0.

Definition stoppedWorld : World MemBucket :=
  snd (UpdateStatusClusterAware SyncPrefix stoppedManager
         (worldWith 1700000060000000000 true [] ["uuid-2"])).
(** The status document the node of the stopped run published last. *)
Definition stoppedStatus : bytes := unwrap (fst (getStatusLocal stoppedManager)).

(** A node that has just claimed the run: its manager, and the world with its
    heartbeat document. *)
Definition claimed : option error * BackgroundManager AttachmentCompactionManager
                     * World MemBucket :=
  markStart SyncPrefix freshCompaction (worldWith 1700000000000000000 false [] ["uuid-1"]).

Definition runningManager : BackgroundManager AttachmentCompactionManager :=
  snd (fst claimed).

Definition runningWorld : World MemBucket := snd claimed.

(** The same world after another node has asked for a stop. *)
Definition flaggedWorld : World MemBucket :=
  snd (markStop SyncPrefix freshCompaction runningWorld).

(** The same world with a heartbeat document that is not JSON. *)
Definition corruptWorld : World MemBucket :=
  set_bucket
    (snd (mem_SetRaw (HeartbeatDocID SyncPrefix compactOptions) 30 "not json"
            (bucket runningWorld)))
    runningWorld.

(** A process whose phase field names no phase. *)
Definition strayPhase : AttachmentCompactionManager :=
  mkAttachmentCompactionManager 500 120 "uuid-1" "sweeping" false.

(** A [Compact] that purges seven documents and leaves the compaction state
    as it is. *)
Definition compactSeven (skipRunningStateCheck : bool) (t : nat) (n : Z)
    (s : World MemBucket * Z) : Z * option error * (World MemBucket * Z) :=
  ((n + 7)%Z, None, s).
(** *** The status document as [encoding/json] writes it. A [time.Time] is
    written as a string in RFC 3339, which the flat codec above does not do.
    The codec below knows the one document of the run that was stopped in
    Sweep: the text that [json.Marshal] gives for it (the start time of that
    run is 1700000000 seconds after the epoch, the dry-run flag is left out
    as [omitempty] says), and that [json.Unmarshal] reads back. *)
#[export] Instance BackgroundManagerStatus_eq_dec : EqDecision BackgroundManagerStatus.
Proof. solve_decision. Defined.

#[export] Instance AttachmentManagerResponse_eq_dec : EqDecision AttachmentManagerResponse.
Proof. solve_decision. Defined.

Definition sweepResponse : AttachmentManagerResponse :=
  mkAttachmentManagerResponse
    (mkBackgroundManagerStatus "running" 1700000000000000000 "")
    500 120 "uuid-1" "sweep" false.

Definition sweepDocument : bytes :=
  unwrap (print_object
            [("status", JString "running");
             ("start_time", JString "2023-11-14T22:13:20Z");
             ("last_error", JString "");
             ("marked_attachments", JNumber 500);
             ("purged_attachments", JNumber 120);
             ("compact_id", JString "uuid-1");
             ("phase", JString "sweep")]).

Definition encodingJSON : JSONCodec := {|
  JSONUnmarshal_map := unmarshal_map;
  JSONMarshal_map := marshal_map;
  JSONUnmarshal_HeartbeatDoc := unmarshal_HeartbeatDoc;
  JSONUnmarshal_AttachmentManagerResponse s :=
    if decide (s = sweepDocument) then (sweepResponse, None)
    else (mkAttachmentManagerResponse (mkBackgroundManagerStatus "" 0 "") 0 0 "" "" false,
          Some (Failure "json: document not known"));
  JSONMarshal_AttachmentManagerResponse r :=
    if decide (r = sweepResponse) then Ok sweepDocument
    else Err (Failure "json: value not known");
  JSONMarshal_ResyncManagerResponse := marshal_ResyncManagerResponse
|}.
End Ref.

(** * Properties *)

(** Case analysis on the first string comparison of the goal. *)
Ltac case_eqb :=
  match goal with
  | |- context [String.eqb ?x ?y] =>
      destruct (String.eqb_spec x y); simpl; try congruence
  end.

Section ManagerProperties.
Context {B : Type} `{!Bucket B} `{!JSONCodec}.
Context {P : Type} `{!BackgroundManagerProcessI B P}.
Variable SyncPrefix : string.

Implicit Types (b : BackgroundManager P) (w : World B).

(** *** Frame lemmas: what leaves the terminators alone *)

Lemma RetryLoop_terminators n (worker : World B -> bool * option error * World B) w :
  (forall w0, terminators (snd (worker w0)) = terminators w0) ->
  terminators (snd (RetryLoop n worker w)) = terminators w.
Proof.
  intros Hworker. revert w.
  induction n as [|n IH]; intros w; [reflexivity|].
  change (RetryLoop (S n) worker w) with
    (let '(shouldRetry, err, w) := worker w in
     if negb shouldRetry then (err, w)
     else match n with
          | O => (Some (default (Failure "RetryLoop giving up") err), w)
          | S _ => RetryLoop n worker w
          end).
  pose proof (Hworker w) as Hw.
  destruct (worker w) as [[shouldRetry err] w1]. simpl in Hw.
  destruct shouldRetry; simpl; [|assumption].
  destruct n as [|n]; [assumption|].
  rewrite IH. assumption.
Qed.

Lemma UpdateStatusClusterAware_terminators b w :
  terminators (snd (UpdateStatusClusterAware SyncPrefix b w)) = terminators w.
Proof.
  unfold UpdateStatusClusterAware.
  destruct (clusterAwareOptions b) as [o|]; [|reflexivity].
  apply RetryLoop_terminators. intros w0.
  destruct (fst (getStatusLocal b)); [|reflexivity].
  destruct (SetRaw _ _ _ _) as [[e|] bk]; reflexivity.
Qed.

Lemma runTask_publish_terminators b w :
  terminators (runTask_publish SyncPrefix b w) = terminators w.
Proof.
  unfold runTask_publish.
  destruct (clusterAwareOptions b) as [o|]; [|reflexivity].
  pose proof (UpdateStatusClusterAware_terminators b w) as Hu.
  destruct (UpdateStatusClusterAware SyncPrefix b w) as [e w1]. simpl in Hu.
  destruct (Delete _ _) as [e' bk]. simpl. assumption.
Qed.

Lemma IsClosed_Close t w : IsClosed t (Close t w) = true.
Proof. unfold IsClosed, Close. simpl. by rewrite lookup_insert_eq. Qed.

Lemma IsClosed_Close_mono t t' w : IsClosed t w = true -> IsClosed t (Close t' w) = true.
Proof.
  unfold IsClosed, Close. simpl. intros Hc.
  destruct (decide (t' = t)) as [->|Hne].
  - by rewrite lookup_insert_eq.
  - by rewrite lookup_insert_ne.
Qed.

Lemma markStop_terminators b w :
  terminators (snd (markStop SyncPrefix b w)) = terminators w.
Proof.
  unfold markStop.
  destruct (clusterAwareOptions b) as [o|].
  - destruct (GetRaw _ _) as [[v|err] bk]; simpl.
    + destruct (BucketSet _ _ _ _) as [[e|] bk']; simpl; reflexivity.
    + destruct (IsDocNotFoundError err); reflexivity.
  - repeat (case_eqb; try reflexivity).
    all: destruct (_ || _); reflexivity.
Qed.

Lemma markStop_error_unchanged b w e b' w' :
  markStop SyncPrefix b w = (Some e, b', w') -> b' = b.
Proof.
  unfold markStop.
  destruct (clusterAwareOptions b) as [o|].
  - destruct (GetRaw _ _) as [[v|err] bk]; simpl.
    + destruct (BucketSet _ _ _ _) as [[e'|] bk']; simpl; congruence.
    + destruct (IsDocNotFoundError err); congruence.
  - destruct (State (Status b) =? BackgroundProcessStateStopping); [congruence|].
    destruct (_ || _); congruence.
Qed.

Lemma runTask_promote_frame b :
  lastError (runTask_promote b) = lastError b /\
  terminator (runTask_promote b) = terminator b /\
  clusterAwareOptions (runTask_promote b) = clusterAwareOptions b /\
  Process (runTask_promote b) = Process b.
Proof.
  unfold runTask_promote.
  destruct (State (Status b) =? BackgroundProcessStateStopping); [done|].
  destruct (negb _); done.
Qed.

(** *** The run task *)

(** C1. When [Process.Run] has returned [err], the run task records a
    non-nil [err] as the last error and sets the state to ERROR; whatever
    [err] is, the manager's terminator is closed when the task ends; the
    manager the task leaves is the one after the error was recorded, promoted
    under the lock: STOPPING becomes STOPPED, and a state that is neither
    STOPPING nor ERROR becomes COMPLETED. *)
Theorem runTask_afterRun_transitions (err : option error) b w :
  let b1 := fst (runTask_recordError err b w) in
  let r := runTask_afterRun SyncPrefix err b w in
  (forall e, err = Some e ->
     lastError b1 = Some e /\ State (Status b1) = BackgroundProcessStateError) /\
  (err = None -> b1 = b) /\
  IsClosed (terminator b) (snd r) = true /\
  fst r = runTask_promote b1 /\
  (forall b0 : BackgroundManager P,
     State (Status b0) = BackgroundProcessStateStopping ->
     State (Status (runTask_promote b0)) = BackgroundProcessStateStopped) /\
  (forall b0 : BackgroundManager P,
     State (Status b0) <> BackgroundProcessStateStopping ->
     State (Status b0) <> BackgroundProcessStateError ->
     State (Status (runTask_promote b0)) = BackgroundProcessStateCompleted).
Proof.
  cbv zeta. split; [|split; [|split; [|split; [|split]]]].
  - intros e ->. split; reflexivity.
  - intros ->. reflexivity.
  - unfold runTask_afterRun.
    destruct (runTask_recordError err b w) as [b1 w1] eqn:Hrec. simpl.
    assert (terminator b1 = terminator b) as Ht.
    { destruct err; simpl in Hrec; inversion Hrec; reflexivity. }
    unfold IsClosed. rewrite runTask_publish_terminators.
    unfold Terminate. rewrite Ht.
    apply IsClosed_Close.
  - unfold runTask_afterRun.
    destruct (runTask_recordError err b w) as [b1 w1]. reflexivity.
  - intros b0 Hs. unfold runTask_promote. rewrite Hs. reflexivity.
  - intros b0 Hs He. unfold runTask_promote.
    destruct (String.eqb_spec (State (Status b0)) BackgroundProcessStateStopping);
      [contradiction|].
    destruct (String.eqb_spec (State (Status b0)) BackgroundProcessStateError);
      [contradiction|].
    reflexivity.
Qed.

(** *** Stopping *)

(** The local branch of [markStop], state by state: "Process already
    stopping" in state STOPPING and "Process already stopped" in the states
    COMPLETED and STOPPED, the manager left as it is; in every other state
    the state is set to STOPPING and nil returned. ERROR is not among the
    states the branch tests. *)
Lemma markStop_local b w :
  clusterAwareOptions b = None ->
  (State (Status b) = BackgroundProcessStateStopping ->
     markStop SyncPrefix b w
     = (Some (HTTPError StatusServiceUnavailable "Process already stopping"), b, w)) /\
  (State (Status b) = BackgroundProcessStateCompleted
   \/ State (Status b) = BackgroundProcessStateStopped ->
     markStop SyncPrefix b w = (Some processAlreadyStoppedErr, b, w)) /\
  (State (Status b) <> BackgroundProcessStateStopping ->
   State (Status b) <> BackgroundProcessStateCompleted ->
   State (Status b) <> BackgroundProcessStateStopped ->
     markStop SyncPrefix b w
     = (None, set_State BackgroundProcessStateStopping b, w)).
Proof.
  intros Hlocal. unfold markStop. rewrite Hlocal. split; [|split].
  - intros ->. reflexivity.
  - intros [-> | ->]; reflexivity.
  - intros H1 H2 H3.
    destruct (String.eqb_spec (State (Status b)) BackgroundProcessStateStopping);
      [contradiction|].
    destruct (String.eqb_spec (State (Status b)) BackgroundProcessStateCompleted);
      [contradiction|].
    destruct (String.eqb_spec (State (Status b)) BackgroundProcessStateStopped);
      [contradiction|].
    reflexivity.
Qed.

(** A local manager in state ERROR has no run left: the state is set by
    [SetError], on the way out of the run task or of the heartbeat renewer,
    and the run task promotes STOPPING to STOPPED once only, after its run.
    [Stop] does not refuse such a manager. It moves it to STOPPING, where
    nothing is left to promote it: every later [Stop] is refused as
    "already stopping" and every later [markStart] as "currently stopping",
    each leaving the manager as it is. *)
Lemma Stop_local_error_stuck b w :
  clusterAwareOptions b = None ->
  State (Status b) = BackgroundProcessStateError ->
  let stuck := set_State BackgroundProcessStateStopping b in
  Stop SyncPrefix b w = (None, stuck, Close (terminator b) w) /\
  (forall w', Stop SyncPrefix stuck w'
     = (Some (HTTPError StatusServiceUnavailable "Process already stopping"),
        stuck, w')) /\
  (forall w', markStart SyncPrefix stuck w'
     = (Some (HTTPError StatusServiceUnavailable
                "Process currently stopping. Wait until stopped to retry"),
        stuck, w')).
Proof.
  intros Hlocal Herror. cbv zeta.
  destruct b as [[st t0 msg] le t o p]. simpl in Hlocal, Herror. subst o st.
  split; [reflexivity|]. split; intros w'; reflexivity.
Qed.

(** C9. A [Stop] that returns an error returns the error of [markStop],
    leaves every field of the manager (its state among them) as it was and
    closes no terminator. *)
Theorem Stop_error_frame b w e b' w' :
  Stop SyncPrefix b w = (Some e, b', w') ->
  markStop SyncPrefix b w = (Some e, b', w') /\
  b' = b /\
  State (Status b') = State (Status b) /\
  terminators w' = terminators w /\
  IsClosed (terminator b) w' = IsClosed (terminator b) w.
Proof.
  unfold Stop. intros HStop.
  destruct (markStop SyncPrefix b w) as [[[e0|] b0] w0] eqn:Hmark;
    inversion HStop; subst.
  pose proof (markStop_error_unchanged _ _ _ _ _ Hmark) as ->.
  pose proof (markStop_terminators b w) as Ht.
  rewrite Hmark in Ht. simpl in Ht.
  repeat split; try assumption.
  unfold IsClosed. rewrite Ht. reflexivity.
Qed.

(** The success path of [Stop]: [markStop] returned nil and the terminator
    is closed. *)
Lemma Stop_success_closes b w b' w' :
  Stop SyncPrefix b w = (None, b', w') ->
  exists w1, markStop SyncPrefix b w = (None, b', w1) /\
             w' = Close (terminator b') w1 /\
             IsClosed (terminator b') w' = true.
Proof.
  unfold Stop. intros HStop.
  destruct (markStop SyncPrefix b w) as [[[e0|] b0] w0] eqn:Hmark;
    inversion HStop; subst.
  exists w0. repeat split. apply IsClosed_Close.
Qed.

(** *** Reading the status *)

(** C10. [getStatusLocal] leaves the manager as it found it: [State],
    [StartTime] and [lastError] are those of before the call. What it returns
    is the process status of an envelope that is a copy: there an empty
    state reads "completed" and [last_error] is the text of [lastError]. *)
Theorem getStatusLocal_frame b :
  let b' := snd (getStatusLocal b) in
  b' = b /\
  State (Status b') = State (Status b) /\
  StartTime (Status b') = StartTime (Status b) /\
  lastError b' = lastError b /\
  exists envelope,
    fst (getStatusLocal b) = GetProcessStatus envelope (Process b) /\
    State envelope
    = (if State (Status b) =? "" then BackgroundProcessStateCompleted
       else State (Status b)) /\
    StartTime envelope = StartTime (Status b) /\
    LastErrorMessage envelope
    = match lastError b with
      | Some e => Error e
      | None => LastErrorMessage (Status b)
      end.
Proof.
  cbv zeta. unfold getStatusLocal. simpl. repeat split.
  eexists. split; [reflexivity|].
  destruct (lastError b), (State (Status b) =? ""); simpl; auto.
Qed.
End ManagerProperties.

Section LeaseProperties.
Context {B : Type} `{!Bucket B} `{!JSONCodec}.
Context {P : Type} `{!BackgroundManagerProcessI B P}.
Variable SyncPrefix : string.

Implicit Types (b : BackgroundManager P) (w : World B).

(** *** Self-healing status *)

(** C2. In cluster mode, when the status document reads RUNNING or STOPPING
    and the heartbeat document is not found, [GetStatus] returns the
    encoding of the status document with [status] set to "stopped", and has
    tried to write these bytes over the status document with its CAS: what
    that write answers is dropped. (Nothing but a failure to encode the
    patched document makes [GetStatus] fail here.) *)
Theorem GetStatus_heals_dead_run b w o status statusCas bk1 clusterStatus s err bk2 :
  clusterAwareOptions b = Some o ->
  GetRaw (StatusDocID SyncPrefix o) (bucket w) = (Ok (status, statusCas), bk1) ->
  JSONUnmarshal_map status = Ok clusterStatus ->
  clusterStatus !! "status" = Some (JString s) ->
  s = BackgroundProcessStateRunning \/ s = BackgroundProcessStateStopping ->
  GetRaw (HeartbeatDocID SyncPrefix o) bk1 = (Err err, bk2) ->
  IsDocNotFoundError err = true ->
  let healed := <["status" := JString BackgroundProcessStateStopped]> clusterStatus in
  healed !! "status" = Some (JString BackgroundProcessStateStopped) /\
  GetStatus SyncPrefix b w
  = match JSONMarshal_map healed with
    | Ok patched =>
        Some (Some patched, None,
              set_bucket
                (snd (WriteCas (StatusDocID SyncPrefix o) 0 0 statusCas patched bk2)) w)
    | Err e => Some (None, Some e, set_bucket bk2 w)
    end.
Proof.
  intros Ho Hget Hjson Hstatus Hs Hprobe Hnf healed. split.
  - unfold healed. apply lookup_insert_eq.
  - unfold GetStatus, isClusterAware, getStatusFromCluster. rewrite Ho, Hget.
    cbn [set_bucket bucket]. rewrite Hjson, Hstatus. cbn [assertString].
    assert ((true && negb (s =? BackgroundProcessStateCompleted)
                  && negb (s =? BackgroundProcessStateStopped)
                  && negb (s =? BackgroundProcessStateError)) = true) as ->.
    { destruct Hs as [-> | ->]; reflexivity. }
    rewrite Hprobe. cbn [set_bucket bucket]. rewrite Hnf.
    fold healed. destruct (JSONMarshal_map healed) as [patched|e]; [|reflexivity].
    destruct (WriteCas _ _ _ _ _ _) as [r bk3]. reflexivity.
Qed.

(** *** Acquiring the lease *)

Lemma markStart_cas_mismatch b w o e bk :
  clusterAwareOptions b = Some o ->
  WriteCas (HeartbeatDocID SyncPrefix o) 0 BackgroundManagerHeartbeatExpirySecs 0 "{}"
    (bucket w) = (Err e, bk) ->
  IsCasMismatch (Some e) = true ->
  markStart SyncPrefix b w = (Some processAlreadyRunningErr, b, set_bucket bk w).
Proof.
  intros Ho Hw Hcas. unfold markStart. rewrite Ho, Hw, Hcas. reflexivity.
Qed.

(** Any other failure of the write is dropped: the manager goes on as if
    it held the lease. *)
Lemma markStart_other_error_dropped b w o e bk :
  clusterAwareOptions b = Some o ->
  WriteCas (HeartbeatDocID SyncPrefix o) 0 BackgroundManagerHeartbeatExpirySecs 0 "{}"
    (bucket w) = (Err e, bk) ->
  IsCasMismatch (Some e) = false ->
  exists b' w',
    markStart SyncPrefix b w = (None, b', w') /\
    State (Status b') = BackgroundProcessStateRunning /\
    goroutines w' = goroutines w ++ [HeartbeatRenewer].
Proof.
  intros Ho Hw Hcas. unfold markStart. rewrite Ho, Hw, Hcas.
  eexists _, _. split; [reflexivity|]. split; reflexivity.
Qed.

(** *** Renewing the lease *)

Lemma UpdateHeartbeat_own_cleanup b w o err bk :
  clusterAwareOptions b = Some o ->
  GetAndTouchRaw (HeartbeatDocID SyncPrefix o) BackgroundManagerHeartbeatExpirySecs
    (bucket w) = (Err err, bk) ->
  IsDocNotFoundError err = true ->
  IsClosed (terminator b) w = true ->
  UpdateHeartbeatDocClusterAware SyncPrefix b w = Some (None, b, set_bucket bk w).
Proof.
  intros Ho Hg Hnf Hc. unfold UpdateHeartbeatDocClusterAware. rewrite Ho, Hg, Hnf.
  unfold IsClosed in *. cbn [set_bucket terminators]. rewrite Hc. reflexivity.
Qed.

(** The grace of a failed renewal is compared as a [Duration]: the bound
    [HeartbeatExpirySecs - HeartbeatIntervalSecs] is 29 nanoseconds. *)
Lemma UpdateHeartbeat_failure b w o err bk :
  clusterAwareOptions b = Some o ->
  GetAndTouchRaw (HeartbeatDocID SyncPrefix o) BackgroundManagerHeartbeatExpirySecs
    (bucket w) = (Err err, bk) ->
  IsDocNotFoundError err && IsClosed (terminator b) w = false ->
  UpdateHeartbeatDocClusterAware SyncPrefix b w
  = Some (if (Sub (clock w) (Unix (lastSuccessfulHeartbeatUnix o)) >? 29)%Z
          then Some err else None, b, set_bucket bk w).
Proof.
  intros Ho Hg Hnc. unfold UpdateHeartbeatDocClusterAware. rewrite Ho, Hg.
  unfold IsClosed in *. cbn [set_bucket terminators clock]. rewrite Hnc.
  change (BackgroundManagerHeartbeatExpirySecs
          - BackgroundManagerHeartbeatIntervalSecs)%Z with 29%Z.
  destruct (_ >? _)%Z; reflexivity.
Qed.

(** A renewal that succeeds calls [Stop] when the document asks for it and
    then stamps the time of the last successful heartbeat. *)
Lemma UpdateHeartbeat_success b w o statusRaw cas bk status :
  clusterAwareOptions b = Some o ->
  GetAndTouchRaw (HeartbeatDocID SyncPrefix o) BackgroundManagerHeartbeatExpirySecs
    (bucket w) = (Ok (statusRaw, cas), bk) ->
  JSONUnmarshal_HeartbeatDoc statusRaw = (status, None) ->
  let w1 := set_bucket bk w in
  let stopped := Stop SyncPrefix b w1 in
  UpdateHeartbeatDocClusterAware SyncPrefix b w
  = Some (if ShouldStop status
          then (None,
                set_lastSuccessfulHeartbeatUnix (nowUnix (snd stopped))
                  (snd (fst stopped)),
                snd stopped)
          else (None, set_lastSuccessfulHeartbeatUnix (nowUnix w1) b, w1)).
Proof.
  intros Ho Hg Hj w1 stopped. unfold UpdateHeartbeatDocClusterAware.
  rewrite Ho, Hg, Hj. fold w1. destruct (ShouldStop status); [|reflexivity].
  fold stopped. destruct stopped as [[e b1] w2]. reflexivity.
Qed.
End LeaseProperties.

Lemma ladder_cases_run phases tr fl final :
  ladder_cases phases tr fl final ->
  match fl with
  | Return err => ladder_run phases (tr ++ [EvPersist final]) err final
  | LeaveSwitch => ladder_run phases (tr ++ [EvSetPhase ""; EvPersist ""]) None ""
  end.
Proof.
  induction 1 as [p rest err closed Hstop | p q rest tr fl final Hc IH | p].
  - by apply ladder_return.
  - destruct fl; rewrite <- app_assoc; by apply ladder_next.
  - apply ladder_complete.
Qed.

Section AttachmentProperties.
Context {B : Type} `{!Bucket B} `{!JSONCodec} `{!DatabaseOps B}.
Variable cb : updateStatusCallbackFunc B AttachmentCompactionManager.
Variable t : nat.

Implicit Types (a : AttachmentCompactionManager) (w : World B).

Lemma stopped_cases (err : option error) (closed : bool) :
  (bool_decide (is_Some err) || closed = true /\ (is_Some err \/ closed = true))
  \/ (bool_decide (is_Some err) || closed = false /\ err = None /\ closed = false).
Proof.
  destruct err as [e|], closed; simpl; eauto 6.
Qed.

Lemma caseCleanup_trace a w tr :
  exists fl a' w' ev,
    caseCleanup cb t a w tr = (fl, a', w', tr ++ ev) /\
    ladder_cases ["cleanup"] ev fl (Phase a').
Proof.
  unfold caseCleanup, persistClusterStatus.
  destruct (cb _ w) as [e0 w1].
  destruct (Cleanup _ t w1) as [err w2].
  rewrite <- !app_assoc. cbn [app SetPhase Phase].
  destruct (stopped_cases err (IsClosed t w2)) as [[-> Hstop] | (-> & -> & Hc)].
  - eexists _, _, _, _. split; [reflexivity|].
    by apply (cases_return "cleanup" []).
  - rewrite Hc. eexists _, _, _, _. split; [reflexivity|].
    apply (cases_leave "cleanup").
Qed.

Lemma caseSweep_trace a w tr :
  exists fl a' w' ev,
    caseSweep cb t a w tr = (fl, a', w', tr ++ ev) /\
    ladder_cases ["sweep"; "cleanup"] ev fl (Phase a').
Proof.
  unfold caseSweep, persistClusterStatus.
  destruct (cb _ w) as [e0 w1].
  destruct (Sweep _ _ t _ w1) as [[purged err] w2].
  rewrite <- !app_assoc. cbn [app SetPhase Phase].
  destruct (stopped_cases err (IsClosed t w2)) as [[-> Hstop] | (-> & -> & Hc)].
  - eexists _, _, _, _. split; [reflexivity|].
    by apply (cases_return "sweep" ["cleanup"]).
  - rewrite Hc.
    destruct (caseCleanup_trace
                (set_PurgedAttachments purged (SetPhase "sweep" a)) w2
                (tr ++ stage "sweep" None false))
      as (fl & a' & w' & ev & Heq & Hl).
    rewrite <- app_assoc in Heq.
    eexists _, _, _, _. split; [exact Heq|].
    by apply (cases_next "sweep" "cleanup" []).
Qed.

Lemma caseMark_trace a w tr :
  exists fl a' w' ev,
    caseMark cb t a w tr = (fl, a', w', tr ++ ev) /\
    ladder_cases ["mark"; "sweep"; "cleanup"] ev fl (Phase a').
Proof.
  unfold caseMark, persistClusterStatus.
  destruct (cb _ w) as [e0 w1].
  destruct (Mark _ t _ w1) as [[marked err] w2].
  rewrite <- !app_assoc. cbn [app SetPhase Phase].
  destruct (stopped_cases err (IsClosed t w2)) as [[-> Hstop] | (-> & -> & Hc)].
  - eexists _, _, _, _. split; [reflexivity|].
    by apply (cases_return "mark" ["sweep"; "cleanup"]).
  - rewrite Hc.
    destruct (caseSweep_trace
                (set_MarkedAttachments marked (SetPhase "mark" a)) w2
                (tr ++ stage "mark" None false))
      as (fl & a' & w' & ev & Heq & Hl).
    rewrite <- app_assoc in Heq.
    eexists _, _, _, _. split; [exact Heq|].
    by apply (cases_next "mark" "sweep" ["cleanup"]).
Qed.

(** What [Run] did, as a trace. *)
Lemma Run_ladder_trace (options : gmap string Value) a w :
  options !! "database" = Some VDatabase ->
  Phase a = "" \/ Phase a = "mark" \/ Phase a = "sweep" \/ Phase a = "cleanup" ->
  exists r,
    AttachmentCompactionManager_Run cb t options a w = Some r /\
    ladder_run (ladder_from (Phase a)) (run_events r) (run_err r)
      (Phase (run_process r)).
Proof.
  intros Hdb Hphase. unfold AttachmentCompactionManager_Run. rewrite Hdb.
  assert (exists fl a' w' ev,
             (if (Phase a =? "mark") || (Phase a =? "") then caseMark cb t a w []
              else if Phase a =? "sweep" then caseSweep cb t a w []
              else if Phase a =? "cleanup" then caseCleanup cb t a w []
              else (LeaveSwitch, a, w, [])) = (fl, a', w', ev) /\
             ladder_cases (ladder_from (Phase a)) ev fl (Phase a'))
    as (fl & a' & w' & ev & -> & Hcases).
  { unfold ladder_from.
    destruct Hphase as [-> | [-> | [-> | ->]]]; cbn [String.eqb Ascii.eqb Bool.eqb orb].
    - apply (caseMark_trace a w []).
    - apply (caseMark_trace a w []).
    - apply (caseSweep_trace a w []).
    - apply (caseCleanup_trace a w []). }
  apply ladder_cases_run in Hcases.
  unfold persistClusterStatus.
  destruct fl as [err|].
  - destruct (cb a' w') as [e0 w1]. eexists. split; [reflexivity|]. exact Hcases.
  - destruct (cb (SetPhase "" a') w') as [e0 w1].
    eexists. split; [reflexivity|]. cbn [run_events run_err run_process SetPhase Phase].
    rewrite <- app_assoc. exact Hcases.
Qed.


(** The final callback and the emptying of the phase field, after a switch
    that a case has left with [fl], the process [a'], the world [w'] and the
    events [ev]. *)
Definition exec_after (phases : list string) a w (fl : flow) a' w'
    (ev : list RunEvent) : Prop :=
  match fl with
  | Return err =>
      ladder_exec cb t phases a w (ev ++ [EvPersist (Phase a')]) err
        a' (snd (cb a' w'))
  | LeaveSwitch =>
      ladder_exec cb t phases a w (ev ++ [EvSetPhase ""; EvPersist ""]) None
        (SetPhase "" a') (snd (cb (SetPhase "" a') w'))
  end.

Lemma caseCleanup_exec a w tr :
  let '(fl, a', w', tr') := caseCleanup cb t a w tr in
  exists ev, tr' = tr ++ ev /\ exec_after ["cleanup"] a w fl a' w' ev.
Proof.
  unfold caseCleanup, persistClusterStatus.
  pose proof (exec_return cb t "cleanup" [] a w) as Hret.
  pose proof (exec_complete cb t "cleanup" a w) as Hdone.
  destruct (cb (SetPhase "cleanup" a) w) as [e0 w1]. cbn [snd] in Hret, Hdone.
  unfold phase_call in Hret, Hdone. cbn [String.eqb Ascii.eqb Bool.eqb] in Hret, Hdone.
  destruct (Cleanup _ t w1) as [err w2].
  rewrite <- !app_assoc. cbn [app SetPhase Phase].
  destruct (stopped_cases err (IsClosed t w2)) as [[-> Hstop] | (-> & -> & Hc)].
  - eexists. split; [reflexivity|]. exact (Hret _ _ _ eq_refl Hstop).
  - eexists. split; [reflexivity|]. specialize (Hdone _ _ eq_refl Hc).
    rewrite Hc. exact Hdone.
Qed.

Lemma caseSweep_exec a w tr :
  let '(fl, a', w', tr') := caseSweep cb t a w tr in
  exists ev, tr' = tr ++ ev /\ exec_after ["sweep"; "cleanup"] a w fl a' w' ev.
Proof.
  unfold caseSweep, persistClusterStatus.
  pose proof (exec_return cb t "sweep" ["cleanup"] a w) as Hret.
  pose proof (exec_next cb t "sweep" "cleanup" [] a w) as Hnext.
  destruct (cb (SetPhase "sweep" a) w) as [e0 w1]. cbn [snd] in Hret, Hnext.
  unfold phase_call in Hret, Hnext. cbn [String.eqb Ascii.eqb Bool.eqb] in Hret, Hnext.
  destruct (Sweep _ _ t _ w1) as [[purged err] w2].
  rewrite <- !app_assoc. cbn [app SetPhase Phase].
  destruct (stopped_cases err (IsClosed t w2)) as [[-> Hstop] | (-> & -> & Hc)].
  - eexists. split; [reflexivity|]. exact (Hret _ _ _ eq_refl Hstop).
  - rewrite Hc.
    pose proof (caseCleanup_exec (set_PurgedAttachments purged (SetPhase "sweep" a)) w2
                  (tr ++ stage "sweep" None false)) as Hrest.
    destruct (caseCleanup _ _ _ _ _) as [[[fl a'] w'] tr'].
    destruct Hrest as (ev & -> & Hexec).
    exists (stage "sweep" None false ++ ev). split; [by rewrite <- app_assoc|].
    unfold exec_after in *.
    destruct fl; rewrite <- app_assoc; exact (Hnext _ _ _ _ _ _ eq_refl Hc Hexec).
Qed.

Lemma caseMark_exec a w tr :
  let '(fl, a', w', tr') := caseMark cb t a w tr in
  exists ev, tr' = tr ++ ev /\ exec_after ["mark"; "sweep"; "cleanup"] a w fl a' w' ev.
Proof.
  unfold caseMark, persistClusterStatus.
  pose proof (exec_return cb t "mark" ["sweep"; "cleanup"] a w) as Hret.
  pose proof (exec_next cb t "mark" "sweep" ["cleanup"] a w) as Hnext.
  destruct (cb (SetPhase "mark" a) w) as [e0 w1]. cbn [snd] in Hret, Hnext.
  unfold phase_call in Hret, Hnext. cbn [String.eqb Ascii.eqb Bool.eqb] in Hret, Hnext.
  destruct (Mark _ t _ w1) as [[marked err] w2].
  rewrite <- !app_assoc. cbn [app SetPhase Phase].
  destruct (stopped_cases err (IsClosed t w2)) as [[-> Hstop] | (-> & -> & Hc)].
  - eexists. split; [reflexivity|]. exact (Hret _ _ _ eq_refl Hstop).
  - rewrite Hc.
    pose proof (caseSweep_exec (set_MarkedAttachments marked (SetPhase "mark" a)) w2
                  (tr ++ stage "mark" None false)) as Hrest.
    destruct (caseSweep _ _ _ _ _) as [[[fl a'] w'] tr'].
    destruct Hrest as (ev & -> & Hexec).
    exists (stage "mark" None false ++ ev). split; [by rewrite <- app_assoc|].
    unfold exec_after in *.
    destruct fl; rewrite <- app_assoc; exact (Hnext _ _ _ _ _ _ eq_refl Hc Hexec).
Qed.

(** C6. A run whose phase field holds "", "mark", "sweep" or "cleanup"
    returns, and its result is that of the ladder from that phase: Mark,
    Sweep, Cleanup are called in this order, from the current phase on, each
    on the process and in the world the phase before left; every phase sets
    the phase field and calls the status callback, on the process that holds
    the new phase, before its phase function is called; a phase function that
    returns an error, or after which the terminator is closed, ends the run
    with that error and no later phase; and when Cleanup ends with neither,
    the phase field is emptied before nil is returned. The error, the
    process (its counters and phase field) and the world of the result are
    those the calls produce, and the status callback is called one last time
    in every case. *)
Theorem Run_phase_ladder (options : gmap string Value) a w :
  options !! "database" = Some VDatabase ->
  Phase a = "" \/ Phase a = "mark" \/ Phase a = "sweep" \/ Phase a = "cleanup" ->
  exists r,
    AttachmentCompactionManager_Run cb t options a w = Some r /\
    ladder_exec cb t (ladder_from (Phase a)) a w (run_events r) (run_err r)
      (run_process r) (run_world r) /\
    ladder_run (ladder_from (Phase a)) (run_events r) (run_err r)
      (Phase (run_process r)).
Proof.
  intros Hdb Hphase.
  destruct (Run_ladder_trace options a w Hdb Hphase) as (r & Hrun & Htrace).
  exists r. split; [exact Hrun|]. split; [|exact Htrace].
  unfold AttachmentCompactionManager_Run in Hrun. rewrite Hdb in Hrun.
  assert (let '(fl, a', w', ev) :=
            (if (Phase a =? "mark") || (Phase a =? "") then caseMark cb t a w []
             else if Phase a =? "sweep" then caseSweep cb t a w []
             else if Phase a =? "cleanup" then caseCleanup cb t a w []
             else (LeaveSwitch, a, w, [])) in
          exec_after (ladder_from (Phase a)) a w fl a' w' ev) as Hexec.
  { unfold ladder_from.
    destruct Hphase as [Hp | [Hp | [Hp | Hp]]]; rewrite Hp;
      cbn [String.eqb Ascii.eqb Bool.eqb orb].
    - pose proof (caseMark_exec a w []) as Hc.
      destruct (caseMark cb t a w []) as [[[fl a'] w'] ev].
      destruct Hc as (ev' & -> & Hc). exact Hc.
    - pose proof (caseMark_exec a w []) as Hc.
      destruct (caseMark cb t a w []) as [[[fl a'] w'] ev].
      destruct Hc as (ev' & -> & Hc). exact Hc.
    - pose proof (caseSweep_exec a w []) as Hc.
      destruct (caseSweep cb t a w []) as [[[fl a'] w'] ev].
      destruct Hc as (ev' & -> & Hc). exact Hc.
    - pose proof (caseCleanup_exec a w []) as Hc.
      destruct (caseCleanup cb t a w []) as [[[fl a'] w'] ev].
      destruct Hc as (ev' & -> & Hc). exact Hc. }
  destruct (if (Phase a =? "mark") || (Phase a =? "") then _ else _)
    as [[[fl a'] w'] ev].
  unfold persistClusterStatus in Hrun. unfold exec_after in Hexec.
  destruct fl as [err|].
  - destruct (cb a' w') as [e0 w1] eqn:Hcb. cbn [snd] in Hexec.
    inversion Hrun; subst r. exact Hexec.
  - destruct (cb (SetPhase "" a') w') as [e0 w1] eqn:Hcb. cbn [snd] in Hexec.
    inversion Hrun; subst r. cbn [run_events run_err run_process run_world SetPhase Phase].
    rewrite <- app_assoc. exact Hexec.
Qed.

(** *** Initialisation *)

(** C5. [Init] (given the database handle, without which it panics)
    starts a fresh run when there are no prior status bytes, and when there
    are and they decode to state COMPLETED, or fail to decode, or the
    options carry [reset = true]; otherwise it resumes: compact ID, phase,
    dry-run flag and both counters are those of the prior status. A fresh
    run takes the next UUID as its compact ID and its dry-run flag from the
    options. *)
Theorem Init_fresh_or_resume (options : gmap string Value)
    (clusterStatus : option bytes) a w :
  options !! "database" = Some VDatabase ->
  let w1 := set_CompactionAttachmentStartTime (nowUnix w) w in
  let init := AttachmentCompactionManager_Init options clusterStatus a w in
  (clusterStatus = None -> init = Some (newRunInit options a w1)) /\
  (forall bs,
     clusterStatus = Some bs ->
     State (amr_Status (fst (JSONUnmarshal_AttachmentManagerResponse bs)))
     = BackgroundProcessStateCompleted
     \/ is_Some (snd (JSONUnmarshal_AttachmentManagerResponse bs))
     \/ options !! "reset" = Some (VBool true) ->
     init = Some (newRunInit options a w1)) /\
  (forall bs r,
     clusterStatus = Some bs ->
     JSONUnmarshal_AttachmentManagerResponse bs = (r, None) ->
     State (amr_Status r) <> BackgroundProcessStateCompleted ->
     options !! "reset" <> Some (VBool true) ->
     init = Some (None,
                  mkAttachmentCompactionManager (amr_MarkedAttachments r)
                    (amr_PurgedAttachments r) (amr_CompactID r) (amr_Phase r)
                    (amr_DryRun r),
                  w1)) /\
  (forall uuid rest,
     entropy w = Ok uuid :: rest ->
     newRunInit options a w1
     = (None,
        mkAttachmentCompactionManager (MarkedAttachments a) (PurgedAttachments a)
          uuid (Phase a) (bool_decide (options !! "dryRun" = Some (VBool true))),
        set_entropy rest w1)).
Proof.
  intros Hdb w1 init. unfold init, AttachmentCompactionManager_Init.
  rewrite Hdb. fold w1. split; [|split; [|split]].
  - intros ->. reflexivity.
  - intros bs -> Hfresh.
    destruct (JSONUnmarshal_AttachmentManagerResponse bs) as [r err]. simpl in Hfresh.
    destruct (assertBool (options !! "reset")) as [reset ok] eqn:Hreset.
    assert ((State (amr_Status r) =? BackgroundProcessStateCompleted)
            || bool_decide (is_Some err) || (reset && ok) = true) as ->;
      [|reflexivity].
    destruct Hfresh as [Hc | [He | Hr]].
    + rewrite Hc. reflexivity.
    + rewrite (bool_decide_eq_true_2 _ He). apply orb_true_iff. left.
      apply orb_true_r.
    + rewrite Hr in Hreset. inversion Hreset. apply orb_true_r.
  - intros bs r -> Hjson Hstate Hreset. rewrite Hjson.
    destruct (assertBool (options !! "reset")) as [reset ok] eqn:Ha.
    assert ((State (amr_Status r) =? BackgroundProcessStateCompleted)
            || bool_decide (is_Some (@None error)) || (reset && ok) = false) as ->;
      [|reflexivity].
    destruct (String.eqb_spec (State (amr_Status r)) BackgroundProcessStateCompleted);
      [contradiction|].
    rewrite bool_decide_eq_false_2 by (intros [? ?]; discriminate). simpl.
    destruct (options !! "reset") as [[[|]| | |]|]; simpl in Ha; inversion Ha;
      try reflexivity.
    contradiction.
  - intros uuid rest Hent. unfold newRunInit, NewRandom.
    cbn [w1 entropy set_CompactionAttachmentStartTime]. rewrite Hent.
    destruct (options !! "dryRun") as [[[|]| | |]|]; reflexivity.
Qed.
End AttachmentProperties.

(** ** A restart with [reset] *)

Section ResetProperties.
Context {B : Type} `{!Bucket B} `{!JSONCodec} `{!DatabaseOps B}.
Variable SyncPrefix : string.

Implicit Types (b : BackgroundManager AttachmentCompactionManager) (w : World B).

Lemma markStart_frame b w :
  Process (snd (fst (markStart SyncPrefix b w))) = Process b /\
  entropy (snd (markStart SyncPrefix b w)) = entropy w.
Proof.
  unfold markStart.
  destruct (clusterAwareOptions b) as [o|].
  - destruct (WriteCas _ _ _ _ _ _) as [r bk].
    destruct (IsCasMismatch _); split; reflexivity.
  - destruct (State (Status b) =? BackgroundProcessStateRunning); [split; reflexivity|].
    destruct (State (Status b) =? BackgroundProcessStateStopping); split; reflexivity.
Qed.

(** Neither [ResetStatus] nor a fresh [Init] writes the phase field: a
    [Start] with [reset = true] that succeeds has zeroed both counters and
    drawn a new compact ID, and the phase field is the one the manager held
    in memory. *)
Lemma Start_reset_keeps_phase (options : gmap string Value) b w b' w' :
  options !! "reset" = Some (VBool true) ->
  Start SyncPrefix options b w = Some (None, b', w') ->
  Phase (Process b') = Phase (Process b) /\
  MarkedAttachments (Process b') = 0%Z /\
  PurgedAttachments (Process b') = 0%Z /\
  head (entropy w) = Some (Ok (CompactID (Process b'))).
Proof.
  intros Hreset. unfold Start.
  pose proof (markStart_frame b w) as [Hproc Hent].
  destruct (markStart SyncPrefix b w) as [[[e|] b1] w1]; [discriminate|].
  simpl in Hproc, Hent.
  set (fetched := match clusterAwareOptions b1 with Some _ => _ | None => _ end).
  assert (entropy (snd fetched) = entropy w) as Hent2.
  { unfold fetched. destruct (clusterAwareOptions b1) as [o|]; [|assumption].
    destruct (GetRaw _ _) as [[[v c]|err] bk]; [assumption|].
    destruct (negb _); assumption. }
  destruct fetched as [[pcs [e|]] w2]; [discriminate|]. simpl in Hent2.
  cbn [Init AttachmentCompactionManager_process].
  unfold AttachmentCompactionManager_Init.
  destruct (options !! "database") as [[| | |]|]; try discriminate.
  rewrite Hreset. cbn [assertBool andb].
  assert (forall x : bool, (x || true) = true) as Hor by (intros []; reflexivity).
  assert (forall a1,
             newRunInit options a1 (set_CompactionAttachmentStartTime (nowUnix w2) w2)
             = match entropy w with
               | Ok u :: rest =>
                   (None, set_CompactID u
                            (set_dryRun (fst (assertBool (options !! "dryRun"))) a1),
                    set_entropy rest (set_CompactionAttachmentStartTime (nowUnix w2) w2))
               | Err e :: rest =>
                   (Some e, a1,
                    set_entropy rest (set_CompactionAttachmentStartTime (nowUnix w2) w2))
               | [] => (Some (Failure "uuid: no entropy"), a1,
                        set_CompactionAttachmentStartTime (nowUnix w2) w2)
               end) as Hnew.
  { intros a1. unfold newRunInit, NewRandom.
    cbn [entropy set_CompactionAttachmentStartTime]. rewrite Hent2.
    destruct (entropy w) as [|[u|e] rest]; try reflexivity.
    destruct (assertBool (options !! "dryRun")); reflexivity. }
  assert (forall (pcs0 : option bytes) a1 x,
             match pcs0 with
             | Some clusterStatus =>
                 let '(attachmentResponseStatus, err) :=
                   JSONUnmarshal_AttachmentManagerResponse clusterStatus in
                 if (State (amr_Status attachmentResponseStatus)
                       =? BackgroundProcessStateCompleted)
                    || bool_decide (is_Some err) || true
                 then Some (newRunInit options a1
                              (set_CompactionAttachmentStartTime (nowUnix w2) w2))
                 else x attachmentResponseStatus
             | None => Some (newRunInit options a1
                               (set_CompactionAttachmentStartTime (nowUnix w2) w2))
             end
             = Some (newRunInit options a1
                       (set_CompactionAttachmentStartTime (nowUnix w2) w2))) as Hinit.
  { intros [bs|] a1 x; [|reflexivity].
    destruct (JSONUnmarshal_AttachmentManagerResponse bs) as [r err].
    rewrite Hor. reflexivity. }
  rewrite Hinit, Hnew.
  destruct (entropy w) as [|[u|e] rest]; try discriminate.
  intros Hstart. inversion Hstart; subst. cbn. rewrite Hproc. auto.
Qed.
End ResetProperties.

(** * Further properties of the manager *)

Section LifecycleProperties.
Context {B : Type} `{!Bucket B} `{!JSONCodec}.
Context {P : Type} `{!BackgroundManagerProcessI B P}.
Variable SyncPrefix : string.

Implicit Types (b : BackgroundManager P) (w : World B).

Lemma sameOutsideBucket_refl w : sameOutsideBucket w w.
Proof. destruct w. reflexivity. Qed.

Lemma sameOutsideBucket_set bk w : sameOutsideBucket w (set_bucket bk w).
Proof. reflexivity. Qed.

Lemma sameOutsideBucket_trans w1 w2 w3 :
  sameOutsideBucket w1 w2 -> sameOutsideBucket w2 w3 -> sameOutsideBucket w1 w3.
Proof. unfold sameOutsideBucket. intros H12 H23. rewrite H23, H12. reflexivity. Qed.

Lemma RetryLoop_sameOutsideBucket n (worker : World B -> bool * option error * World B) w :
  (forall w0, sameOutsideBucket w0 (snd (worker w0))) ->
  sameOutsideBucket w (snd (RetryLoop n worker w)).
Proof.
  intros Hworker. revert w.
  induction n as [|n IH]; intros w; [apply sameOutsideBucket_refl|].
  change (RetryLoop (S n) worker w) with
    (let '(shouldRetry, err, w) := worker w in
     if negb shouldRetry then (err, w)
     else match n with
          | O => (Some (default (Failure "RetryLoop giving up") err), w)
          | S _ => RetryLoop n worker w
          end).
  pose proof (Hworker w) as Hw.
  destruct (worker w) as [[shouldRetry err] w1]. simpl in Hw.
  destruct shouldRetry; simpl; [|assumption].
  destruct n as [|n]; [assumption|].
  eapply sameOutsideBucket_trans; [exact Hw | apply IH].
Qed.

Lemma UpdateStatusClusterAware_sameOutsideBucket b w :
  sameOutsideBucket w (snd (UpdateStatusClusterAware SyncPrefix b w)).
Proof.
  unfold UpdateStatusClusterAware.
  destruct (clusterAwareOptions b) as [o|]; [|apply sameOutsideBucket_refl].
  apply RetryLoop_sameOutsideBucket. intros w0.
  destruct (fst (getStatusLocal b)); [|apply sameOutsideBucket_refl].
  destruct (SetRaw _ _ _ _) as [[e|] bk]; apply sameOutsideBucket_set.
Qed.

(** The states the promotion of the run task ends in. *)
Lemma runTask_promote_terminal b :
  terminalState (State (Status (runTask_promote b))).
Proof.
  unfold runTask_promote, terminalState.
  destruct (String.eqb_spec (State (Status b)) BackgroundProcessStateStopping);
    [by left|].
  destruct (String.eqb_spec (State (Status b)) BackgroundProcessStateError);
    cbn [negb]; [by right; right | by right; left].
Qed.


(** X2. A [markStart] that succeeds, in either mode, leaves the manager in
    state RUNNING with a terminator that was just allocated and is open,
    whatever became of the previous one; the terminators that existed are as
    they were, and the process and the last error are untouched. *)
Theorem markStart_success_fresh_terminator b w b' w' :
  markStart SyncPrefix b w = (None, b', w') ->
  State (Status b') = BackgroundProcessStateRunning /\
  terminator b' = nextTerminator w /\
  IsClosed (terminator b') w' = false /\
  (forall t, t <> nextTerminator w -> IsClosed t w' = IsClosed t w) /\
  Process b' = Process b /\ lastError b' = lastError b /\
  clusterAwareOptions b' = clusterAwareOptions b.
Proof.
  unfold markStart. intros Hstart.
  assert (forall w0 : World B,
             IsClosed (nextTerminator w0) (snd (NewSafeTerminator w0)) = false /\
             forall t, t <> nextTerminator w0 ->
                       IsClosed t (snd (NewSafeTerminator w0)) = IsClosed t w0) as Hnew.
  { intros w0. unfold IsClosed, NewSafeTerminator. simpl. split.
    - by rewrite lookup_insert_eq.
    - intros t Ht. by rewrite lookup_insert_ne. }
  destruct (clusterAwareOptions b) as [o|] eqn:Ho.
  - destruct (WriteCas _ _ _ _ _ _) as [r bk].
    destruct (IsCasMismatch _); [discriminate|].
    inversion Hstart; subst; clear Hstart.
    destruct (Hnew (set_bucket bk w)) as [Hopen Hothers].
    repeat split; try assumption; try reflexivity.
  - destruct (State (Status b) =? BackgroundProcessStateRunning); [discriminate|].
    destruct (State (Status b) =? BackgroundProcessStateStopping); [discriminate|].
    inversion Hstart; subst; clear Hstart.
    destruct (Hnew w) as [Hopen Hothers].
    repeat split; try assumption; try reflexivity.
Qed.

(** X3. A [markStart] that is refused changes neither the manager nor any
    terminator and starts no goroutine; the only errors it reports are the
    two 503 of a process that is running or stopping. *)
Theorem markStart_refused_frame b w e b' w' :
  markStart SyncPrefix b w = (Some e, b', w') ->
  b' = b /\ sameOutsideBucket w w' /\
  (e = processAlreadyRunningErr
   \/ e = HTTPError StatusServiceUnavailable
            "Process currently stopping. Wait until stopped to retry").
Proof.
  unfold markStart. intros Hstart.
  destruct (clusterAwareOptions b) as [o|] eqn:Ho.
  - destruct (WriteCas _ _ _ _ _ _) as [r bk].
    destruct (IsCasMismatch _); [|discriminate].
    inversion Hstart; subst. split; [reflexivity|]. split; [reflexivity|]. by left.
  - destruct (State (Status b) =? BackgroundProcessStateRunning).
    + inversion Hstart; subst. split; [reflexivity|].
      split; [apply sameOutsideBucket_refl|]. by left.
    + destruct (State (Status b) =? BackgroundProcessStateStopping); [|discriminate].
      inversion Hstart; subst. split; [reflexivity|].
      split; [apply sameOutsideBucket_refl|]. by right.
Qed.

(** X4. In local mode, stopping a running manager succeeds once: the state
    becomes STOPPING and the terminator is closed; a second [Stop] is
    refused with "Process already stopping" and changes nothing. *)
Theorem Stop_local_once b w :
  clusterAwareOptions b = None ->
  State (Status b) = BackgroundProcessStateRunning ->
  let b1 := set_State BackgroundProcessStateStopping b in
  let w1 := Close (terminator b) w in
  Stop SyncPrefix b w = (None, b1, w1) /\
  IsClosed (terminator b1) w1 = true /\
  Stop SyncPrefix b1 w1
  = (Some (HTTPError StatusServiceUnavailable "Process already stopping"), b1, w1).
Proof.
  intros Hlocal Hrun. cbv zeta. unfold Stop, markStop. cbn [set_State set_Status
    clusterAwareOptions Status State with_State]. rewrite Hlocal, Hrun.
  split; [reflexivity|]. split; [apply IsClosed_Close | reflexivity].
Qed.

(** X5. Whatever [Run] returned and whatever the state was, the run task
    leaves the manager in a terminal state (STOPPED, COMPLETED or ERROR);
    after an error it is ERROR with that error recorded, even if a stop had
    been requested. *)
Theorem runTask_afterRun_terminal (err : option error) b w :
  let b' := fst (runTask_afterRun SyncPrefix err b w) in
  terminalState (State (Status b')) /\
  (forall e, err = Some e ->
     State (Status b') = BackgroundProcessStateError /\ lastError b' = Some e) /\
  (err = None -> lastError b' = lastError b).
Proof.
  cbv zeta. unfold runTask_afterRun.
  destruct (runTask_recordError err b w) as [b1 w1] eqn:Hrec. cbn [fst].
  split; [apply runTask_promote_terminal|]. split.
  - intros e ->. simpl in Hrec. inversion Hrec; subst. split; reflexivity.
  - intros ->. simpl in Hrec. inversion Hrec; subst.
    apply (runTask_promote_frame b1).
Qed.

(** X6. In local mode a new start is refused from a successful [Stop] until
    the run task has ended, and accepted right after: the run task that
    returns nil turns STOPPING into STOPPED, from where [markStart]
    succeeds. *)
Theorem restart_after_stop_local b w :
  clusterAwareOptions b = None ->
  State (Status b) = BackgroundProcessStateRunning ->
  let '(_, b1, w1) := Stop SyncPrefix b w in
  let '(b2, w2) := runTask_afterRun SyncPrefix None b1 w1 in
  fst (fst (markStart SyncPrefix b1 w1))
  = Some (HTTPError StatusServiceUnavailable
            "Process currently stopping. Wait until stopped to retry") /\
  State (Status b2) = BackgroundProcessStateStopped /\
  fst (fst (markStart SyncPrefix b2 w2)) = None.
Proof.
  intros Hlocal Hrun.
  destruct b as [[st t0 msg] le t o p]. simpl in Hlocal, Hrun. subst o st.
  cbn. split; [reflexivity|]. split; reflexivity.
Qed.

(** X7. After the run task, in local mode, the manager can always be started
    again, whatever [Run] returned and whatever the state was before. *)
Theorem runTask_afterRun_restartable (err : option error) b w :
  clusterAwareOptions b = None ->
  let '(b', w') := runTask_afterRun SyncPrefix err b w in
  fst (fst (markStart SyncPrefix b' w')) = None.
Proof.
  intros Hlocal.
  destruct (runTask_afterRun SyncPrefix err b w) as [b' w'] eqn:Hrun.
  unfold runTask_afterRun in Hrun.
  destruct (runTask_recordError err b w) as [b1 w1] eqn:Hrec.
  inversion Hrun; subst b' w'; clear Hrun.
  pose proof (runTask_promote_terminal b1) as Hterm.
  assert (clusterAwareOptions (runTask_promote b1) = None) as Hlocal'.
  { destruct (runTask_promote_frame b1) as (_ & _ & -> & _).
    destruct err; simpl in Hrec; inversion Hrec; subst; assumption. }
  unfold markStart. rewrite Hlocal'.
  destruct Hterm as [-> | [-> | ->]]; reflexivity.
Qed.

(** X8. Neither [Stop] nor the run task reopens a terminator: one that is
    closed stays closed through both. *)
Theorem terminators_stay_closed (err : option error) b w t :
  IsClosed t w = true ->
  IsClosed t (snd (Stop SyncPrefix b w)) = true /\
  IsClosed t (snd (runTask_afterRun SyncPrefix err b w)) = true.
Proof.
  intros Hclosed. split.
  - unfold Stop.
    pose proof (markStop_terminators SyncPrefix b w) as Hterm.
    destruct (markStop SyncPrefix b w) as [[[e|] b1] w1]; simpl in *.
    + unfold IsClosed in *. by rewrite Hterm.
    + apply IsClosed_Close_mono. unfold IsClosed in *. by rewrite Hterm.
  - unfold runTask_afterRun.
    destruct (runTask_recordError err b w) as [b1 w1] eqn:Hrec. cbn [snd].
    unfold IsClosed. rewrite runTask_publish_terminators.
    apply IsClosed_Close_mono.
    destruct err as [e|]; simpl in Hrec; inversion Hrec; subst.
    + by apply IsClosed_Close_mono.
    + assumption.
Qed.

(** X9. A new run starts with a clean slate: after [resetStatus] the status
    envelope carries no error text, whatever error the previous run left,
    the counters are those of a reset process, and state and start time are
    as they were. *)
Theorem resetStatus_clears_error b :
  let b' := resetStatus b in
  lastError b' = None /\
  State (Status b') = State (Status b) /\
  StartTime (Status b') = StartTime (Status b) /\
  terminator b' = terminator b /\
  fst (getStatusLocal b')
  = GetProcessStatus
      (mkBackgroundManagerStatus
         (if State (Status b) =? "" then BackgroundProcessStateCompleted
          else State (Status b))
         (StartTime (Status b)) "")
      (ResetStatus (Process b)).
Proof.
  cbv zeta. unfold resetStatus, getStatusLocal. cbn.
  repeat split. destruct (State (Status b) =? ""); reflexivity.
Qed.
End LifecycleProperties.

Section StatusProperties.
Context {B : Type} `{!Bucket B} `{!JSONCodec}.
Context {P : Type} `{!BackgroundManagerProcessI B P}.
Variable SyncPrefix : string.

Implicit Types (b : BackgroundManager P) (w : World B).

(** X10. In cluster mode [GetStatus] returns the stored status bytes as they
    are, and writes nothing, in two cases: when the stored status is not a
    string or is terminal (then the heartbeat is not even read), and when the
    run is under way and its heartbeat document exists. *)
Theorem GetStatus_returns_stored b w o status statusCas bk1 clusterStatus :
  clusterAwareOptions b = Some o ->
  GetRaw (StatusDocID SyncPrefix o) (bucket w) = (Ok (status, statusCas), bk1) ->
  JSONUnmarshal_map status = Ok clusterStatus ->
  ((forall s, clusterStatus !! "status" = Some (JString s) -> terminalState s) ->
     GetStatus SyncPrefix b w = Some (Some status, None, set_bucket bk1 w)) /\
  (forall v bk2,
     GetRaw (HeartbeatDocID SyncPrefix o) bk1 = (Ok v, bk2) ->
     (exists s, clusterStatus !! "status" = Some (JString s) /\ ~ terminalState s) ->
     GetStatus SyncPrefix b w = Some (Some status, None, set_bucket bk2 w)).
Proof.
  intros Ho Hget Hjson.
  unfold GetStatus, isClusterAware, getStatusFromCluster. rewrite Ho, Hget.
  cbn [set_bucket bucket]. rewrite Hjson. split.
  - intros Hterm.
    destruct (clusterStatus !! "status") as [[| | |s| |]|]; try reflexivity.
    cbn [assertString].
    destruct (Hterm s eq_refl) as [-> | [-> | ->]]; reflexivity.
  - intros v bk2 Hprobe (s & Hs & Hnt). rewrite Hs. cbn [assertString].
    assert (true && negb (s =? BackgroundProcessStateCompleted)
                 && negb (s =? BackgroundProcessStateStopped)
                 && negb (s =? BackgroundProcessStateError) = true) as ->.
    { unfold terminalState in Hnt.
      destruct (String.eqb_spec s BackgroundProcessStateCompleted); [tauto|].
      destruct (String.eqb_spec s BackgroundProcessStateStopped); [tauto|].
      destruct (String.eqb_spec s BackgroundProcessStateError); [tauto|].
      reflexivity. }
    rewrite Hprobe. reflexivity.
Qed.

(** X11. Before the first run, when the cluster holds no status document,
    [GetStatus] answers with the local status, as it does for a manager that
    is not cluster aware: for a manager that never ran, an envelope in state
    "completed". *)
Theorem GetStatus_falls_back_to_local b w :
  let local w0 :=
    match fst (getStatusLocal b) with
    | Ok s => Some (Some s, None, w0)
    | Err e => Some (None, Some e, w0)
    end in
  (clusterAwareOptions b = None -> GetStatus SyncPrefix b w = local w) /\
  (forall o e bk,
     clusterAwareOptions b = Some o ->
     GetRaw (StatusDocID SyncPrefix o) (bucket w) = (Err e, bk) ->
     IsDocNotFoundError e = true ->
     GetStatus SyncPrefix b w = local (set_bucket bk w)) /\
  (State (Status b) = "" -> lastError b = None ->
     fst (getStatusLocal b)
     = GetProcessStatus
         (mkBackgroundManagerStatus BackgroundProcessStateCompleted
            (StartTime (Status b)) (LastErrorMessage (Status b)))
         (Process b)).
Proof.
  cbv zeta. split; [|split].
  - intros Hlocal. unfold GetStatus, isClusterAware. rewrite Hlocal. reflexivity.
  - intros o e bk Ho Hget Hnf.
    unfold GetStatus, isClusterAware, getStatusFromCluster.
    rewrite Ho, Hget, Hnf. reflexivity.
  - intros Hs He. unfold getStatusLocal. rewrite Hs, He. reflexivity.
Qed.

(** X12. In cluster mode [GetStatus] fails, with no bytes, exactly with the
    error of what went wrong: a failed read of the status document (other
    than not-found), a status document that does not decode, or a failed
    probe of the heartbeat (other than not-found) for a run under way. In
    none of these cases is anything written. *)
Theorem GetStatus_failures b w o :
  clusterAwareOptions b = Some o ->
  (forall e bk,
     GetRaw (StatusDocID SyncPrefix o) (bucket w) = (Err e, bk) ->
     IsDocNotFoundError e = false ->
     GetStatus SyncPrefix b w = Some (None, Some e, set_bucket bk w)) /\
  (forall status statusCas bk e,
     GetRaw (StatusDocID SyncPrefix o) (bucket w) = (Ok (status, statusCas), bk) ->
     JSONUnmarshal_map status = Err e ->
     GetStatus SyncPrefix b w = Some (None, Some e, set_bucket bk w)) /\
  (forall status statusCas bk1 clusterStatus s e bk2,
     GetRaw (StatusDocID SyncPrefix o) (bucket w) = (Ok (status, statusCas), bk1) ->
     JSONUnmarshal_map status = Ok clusterStatus ->
     clusterStatus !! "status" = Some (JString s) ->
     ~ terminalState s ->
     GetRaw (HeartbeatDocID SyncPrefix o) bk1 = (Err e, bk2) ->
     IsDocNotFoundError e = false ->
     GetStatus SyncPrefix b w = Some (None, Some e, set_bucket bk2 w)).
Proof.
  intros Ho. unfold GetStatus, isClusterAware, getStatusFromCluster. rewrite Ho.
  split; [|split].
  - intros e bk -> ->. reflexivity.
  - intros status statusCas bk e -> ->. reflexivity.
  - intros status statusCas bk1 clusterStatus s e bk2 -> -> -> Hnt.
    cbn [assertString set_bucket bucket].
    assert (true && negb (s =? BackgroundProcessStateCompleted)
                 && negb (s =? BackgroundProcessStateStopped)
                 && negb (s =? BackgroundProcessStateError) = true) as ->.
    { unfold terminalState in Hnt.
      destruct (String.eqb_spec s BackgroundProcessStateCompleted); [tauto|].
      destruct (String.eqb_spec s BackgroundProcessStateStopped); [tauto|].
      destruct (String.eqb_spec s BackgroundProcessStateError); [tauto|].
      reflexivity. }
    intros -> ->. reflexivity.
Qed.

(** [markStop] writes no field of the manager but the state. *)
Lemma markStop_only_state b w :
  let b' := snd (fst (markStop SyncPrefix b w)) in
  terminator b' = terminator b /\ clusterAwareOptions b' = clusterAwareOptions b /\
  Process b' = Process b /\ lastError b' = lastError b.
Proof.
  cbv zeta. unfold markStop.
  destruct (clusterAwareOptions b) as [o|] eqn:Ho.
  - destruct (GetRaw _ _) as [[v|err] bk]; cbn.
    + destruct (BucketSet _ _ _ _) as [[e|] bk']; cbn; [rewrite ?Ho; done|].
      destruct (State (Status b) =? BackgroundProcessStateRunning); rewrite ?Ho; done.
    + destruct (IsDocNotFoundError err); rewrite ?Ho; done.
  - destruct (State (Status b) =? BackgroundProcessStateStopping); [rewrite ?Ho; done|].
    destruct (_ || _); rewrite ?Ho; done.
Qed.

Lemma markStop_clock b w : clock (snd (markStop SyncPrefix b w)) = clock w.
Proof.
  unfold markStop.
  destruct (clusterAwareOptions b) as [o|].
  - destruct (GetRaw _ _) as [[v|err] bk]; cbn.
    + destruct (BucketSet _ _ _ _) as [[e|] bk']; reflexivity.
    + destruct (IsDocNotFoundError err); reflexivity.
  - destruct (State (Status b) =? BackgroundProcessStateStopping); [reflexivity|].
    destruct (_ || _); reflexivity.
Qed.

(** X13. In cluster mode [Stop] goes by the heartbeat document, not by the
    local state. Without a heartbeat it is refused with "Process already
    stopped", in any state. With one, the document is rewritten with
    [should_stop] and the lease time, the terminator of the calling node is
    closed, and the state becomes STOPPING on the node that is RUNNING only:
    on any other node the manager is left as it is. *)
Theorem Stop_cluster_by_heartbeat b w o :
  clusterAwareOptions b = Some o ->
  (forall e bk,
     GetRaw (HeartbeatDocID SyncPrefix o) (bucket w) = (Err e, bk) ->
     IsDocNotFoundError e = true ->
     Stop SyncPrefix b w = (Some processAlreadyStoppedErr, b, set_bucket bk w)) /\
  (forall v bk1 bk2,
     GetRaw (HeartbeatDocID SyncPrefix o) (bucket w) = (Ok v, bk1) ->
     BucketSet (HeartbeatDocID SyncPrefix o) BackgroundManagerHeartbeatExpirySecs
       (mkHeartbeatDoc true) bk1 = (None, bk2) ->
     exists b',
       Stop SyncPrefix b w = (None, b', Close (terminator b) (set_bucket bk2 w)) /\
       (State (Status b) = BackgroundProcessStateRunning ->
          b' = set_State BackgroundProcessStateStopping b) /\
       (State (Status b) <> BackgroundProcessStateRunning -> b' = b)).
Proof.
  intros Ho. unfold Stop, markStop. rewrite Ho. split.
  - intros e bk -> ->. reflexivity.
  - intros v bk1 bk2 ->. cbn [set_bucket bucket]. intros ->.
    destruct (String.eqb_spec (State (Status b)) BackgroundProcessStateRunning)
      as [Hrun|Hrun].
    + eexists. split; [reflexivity|]. split; [reflexivity | contradiction].
    + eexists. split; [reflexivity|]. split; [contradiction | reflexivity].
Qed.

(** X14. A renewal that fetches a heartbeat document it can decode never
    fails, even when the document asks for a stop and that stop fails: it
    records the current time as the last successful heartbeat, and a document
    without [should_stop] changes nothing else. *)
Theorem UpdateHeartbeat_renewed b w o statusRaw cas bk status :
  clusterAwareOptions b = Some o ->
  GetAndTouchRaw (HeartbeatDocID SyncPrefix o) BackgroundManagerHeartbeatExpirySecs
    (bucket w) = (Ok (statusRaw, cas), bk) ->
  JSONUnmarshal_HeartbeatDoc statusRaw = (status, None) ->
  exists b' w',
    UpdateHeartbeatDocClusterAware SyncPrefix b w = Some (None, b', w') /\
    clusterAwareOptions b'
    = Some (mkClusterAwareOptions (processSuffix o) (nowUnix w)) /\
    (ShouldStop status = false ->
       b' = set_lastSuccessfulHeartbeatUnix (nowUnix w) b /\ w' = set_bucket bk w).
Proof.
  intros Ho Hget Hjson.
  rewrite (UpdateHeartbeat_success SyncPrefix b w o statusRaw cas bk status Ho Hget Hjson).
  cbv zeta. destruct (ShouldStop status).
  - eexists _, _. split; [reflexivity|]. split; [|discriminate].
    pose proof (markStop_only_state b (set_bucket bk w)) as (_ & Hopts & _).
    pose proof (markStop_clock b (set_bucket bk w)) as Hclock.
    unfold Stop. cbv zeta in Hopts.
    destruct (markStop SyncPrefix b (set_bucket bk w)) as [[[e|] b1] w1];
      cbn in *; unfold set_lastSuccessfulHeartbeatUnix, nowUnix;
      rewrite Hopts, Ho; cbn; rewrite Hclock; reflexivity.
  - eexists _, _. split; [reflexivity|]. split; [|auto].
    unfold set_lastSuccessfulHeartbeatUnix. rewrite Ho. reflexivity.
Qed.

(** X15. A heartbeat document that asks for a stop stops the node that runs:
    after the renewal its state is STOPPING and its terminator closed, and
    the renewal itself has succeeded. *)
Theorem UpdateHeartbeat_should_stop b w o statusRaw cas bk1 status v bk2 bk3 :
  clusterAwareOptions b = Some o ->
  State (Status b) = BackgroundProcessStateRunning ->
  GetAndTouchRaw (HeartbeatDocID SyncPrefix o) BackgroundManagerHeartbeatExpirySecs
    (bucket w) = (Ok (statusRaw, cas), bk1) ->
  JSONUnmarshal_HeartbeatDoc statusRaw = (status, None) ->
  ShouldStop status = true ->
  GetRaw (HeartbeatDocID SyncPrefix o) bk1 = (Ok v, bk2) ->
  BucketSet (HeartbeatDocID SyncPrefix o) BackgroundManagerHeartbeatExpirySecs
    (mkHeartbeatDoc true) bk2 = (None, bk3) ->
  exists b' w',
    UpdateHeartbeatDocClusterAware SyncPrefix b w = Some (None, b', w') /\
    State (Status b') = BackgroundProcessStateStopping /\
    IsClosed (terminator b) w' = true /\
    bucket w' = bk3.
Proof.
  intros Ho Hrun Hget Hjson Hstop Hprobe Hset.
  rewrite (UpdateHeartbeat_success SyncPrefix b w o statusRaw cas bk1 status Ho Hget Hjson).
  cbv zeta. rewrite Hstop.
  unfold Stop, markStop. rewrite Ho. cbn [set_bucket bucket].
  rewrite Hprobe. cbn [set_bucket bucket]. rewrite Hset, Hrun.
  eexists _, _. split; [reflexivity|].
  cbn [fst snd]. split; [|split].
  - unfold set_lastSuccessfulHeartbeatUnix. cbn. rewrite Ho. reflexivity.
  - apply IsClosed_Close.
  - reflexivity.
Qed.

(** X16. A heartbeat document that does not decode ends the run at once,
    without the grace of a failed fetch: the renewal returns the decoding
    error without recording a heartbeat, and the renewer puts the manager in
    state ERROR with that error and closes the terminator. *)
Theorem heartbeatTick_undecodable b w o statusRaw cas bk status e :
  clusterAwareOptions b = Some o ->
  GetAndTouchRaw (HeartbeatDocID SyncPrefix o) BackgroundManagerHeartbeatExpirySecs
    (bucket w) = (Ok (statusRaw, cas), bk) ->
  JSONUnmarshal_HeartbeatDoc statusRaw = (status, Some e) ->
  UpdateHeartbeatDocClusterAware SyncPrefix b w = Some (Some e, b, set_bucket bk w) /\
  exists b' w',
    heartbeatTick SyncPrefix b w = Some (b', w') /\
    State (Status b') = BackgroundProcessStateError /\
    lastError b' = Some e /\
    clusterAwareOptions b' = clusterAwareOptions b /\
    IsClosed (terminator b) w' = true.
Proof.
  intros Ho Hget Hjson.
  assert (UpdateHeartbeatDocClusterAware SyncPrefix b w
          = Some (Some e, b, set_bucket bk w)) as Hupd.
  { unfold UpdateHeartbeatDocClusterAware. rewrite Ho, Hget, Hjson. reflexivity. }
  split; [exact Hupd|].
  unfold heartbeatTick. rewrite Hupd. unfold SetError.
  eexists _, _. split; [reflexivity|]. repeat split.
  apply IsClosed_Close.
Qed.
End StatusProperties.

Section KeyProperties.
Variable SyncPrefix : string.

Lemma append_cancel_l (p x y : string) : p +:+ x = p +:+ y -> x = y.
Proof.
  induction p as [|c p IH]; simpl; intros Heq; [assumption|].
  inversion Heq. auto.
Qed.

(** X17. The heartbeat document and the status document never share a key,
    whatever the prefix and the process names, and two processes share a
    heartbeat key, or a status key, only if they have the same name. *)
Theorem document_keys_distinct (o o' : ClusterAwareBackgroundManagerOptions) :
  HeartbeatDocID SyncPrefix o <> StatusDocID SyncPrefix o' /\
  (HeartbeatDocID SyncPrefix o = HeartbeatDocID SyncPrefix o' ->
     processSuffix o = processSuffix o') /\
  (StatusDocID SyncPrefix o = StatusDocID SyncPrefix o' ->
     processSuffix o = processSuffix o').
Proof.
  unfold HeartbeatDocID, StatusDocID. split; [|split].
  - intros Heq. apply append_cancel_l in Heq. simpl in Heq. discriminate.
  - intros Heq. apply append_cancel_l in Heq.
    apply (append_cancel_l ":background_process:heartbeat:") in Heq. exact Heq.
  - intros Heq. apply append_cancel_l in Heq.
    apply (append_cancel_l ":background_process:status:") in Heq. exact Heq.
Qed.
End KeyProperties.

Section StartProperties.
Context {B : Type} `{!Bucket B} `{!JSONCodec}.
Variable SyncPrefix : string.

Lemma sameOutsideBucket_fields (w w' : World B) :
  sameOutsideBucket w w' ->
  terminators w' = terminators w /\ nextTerminator w' = nextTerminator w /\
  clock w' = clock w /\ entropy w' = entropy w /\ goroutines w' = goroutines w.
Proof. unfold sameOutsideBucket. intros ->. repeat split. Qed.

Lemma markStart_success_world {P : Type} `{!BackgroundManagerProcessI B P}
    (b b' : BackgroundManager P) (w w' : World B) :
  markStart SyncPrefix b w = (None, b', w') ->
  clock w' = clock w /\ entropy w' = entropy w /\
  goroutines w'
  = goroutines w ++ (if isClusterAware b then [HeartbeatRenewer] else []) /\
  Status b' = with_State BackgroundProcessStateRunning (Status b) /\
  terminator b' = nextTerminator w /\
  clusterAwareOptions b' = clusterAwareOptions b /\
  terminators w' !! nextTerminator w = Some false.
Proof.
  unfold markStart, isClusterAware. intros Hstart.
  destruct (clusterAwareOptions b) as [o|] eqn:Ho.
  - destruct (WriteCas _ _ _ _ _ _) as [r bk].
    destruct (IsCasMismatch _); [discriminate|].
    inversion Hstart; subst. cbn. rewrite lookup_insert_eq. repeat split. exact Ho.
  - destruct (State (Status b) =? BackgroundProcessStateRunning); [discriminate|].
    destruct (State (Status b) =? BackgroundProcessStateStopping); [discriminate|].
    inversion Hstart; subst. cbn. rewrite app_nil_r, lookup_insert_eq.
    repeat split. exact Ho.
Qed.

(** X18. When [Start] fails after [markStart] had claimed the run (the read
    of the prior status failed, or [Init] did), the manager stays in state
    RUNNING although no run task was started; in local mode every later
    start is then refused with "Process already running". *)
Theorem Start_failure_after_claim {P : Type} `{!BackgroundManagerProcessI B P}
    (options : gmap string Value) (b b' : BackgroundManager P) (w w' : World B) e :
  Start SyncPrefix options b w = Some (Some e, b', w') ->
  fst (fst (markStart SyncPrefix b w)) = None ->
  State (Status b') = BackgroundProcessStateRunning /\
  terminator b' = nextTerminator w /\
  (clusterAwareOptions b = None ->
     fst (fst (markStart SyncPrefix b' w')) = Some processAlreadyRunningErr).
Proof.
  unfold Start. intros HStart Hclaimed.
  destruct (markStart SyncPrefix b w) as [[e0 b1] w1] eqn:Hms.
  simpl in Hclaimed. subst e0.
  destruct (markStart_success_world b b1 w w1 Hms)
    as (_ & _ & _ & Hstatus & Hterm & Hopts & _).
  assert (State (Status b1) = BackgroundProcessStateRunning) as Hrun
    by (rewrite Hstatus; reflexivity).
  assert (forall b2 : BackgroundManager P,
             State (Status b2) = BackgroundProcessStateRunning ->
             clusterAwareOptions b2 = clusterAwareOptions b ->
             forall w2, clusterAwareOptions b = None ->
             fst (fst (markStart SyncPrefix b2 w2)) = Some processAlreadyRunningErr)
    as Hrefused.
  { intros b2 Hs Ho w2 Hlocal. unfold markStart. rewrite Ho, Hlocal, Hs. reflexivity. }
  set (fetched := match clusterAwareOptions b1 with Some _ => _ | None => _ end)
    in HStart.
  destruct fetched as [[pcs [e1|]] w2].
  - inversion HStart; subst. split; [assumption|]. split; [assumption|].
    apply Hrefused; assumption.
  - destruct (Init _ _ _ _) as [[[[e2|] p] w3]|]; inversion HStart; subst.
    split; [exact Hrun|]. split; [exact Hterm|].
    apply Hrefused; [exact Hrun | exact Hopts].
Qed.
End StartProperties.

Section MoreAttachmentProperties.
Context {B : Type} `{!Bucket B} `{!JSONCodec} `{!DatabaseOps B}.
Variable SyncPrefix : string.

Implicit Types (a : AttachmentCompactionManager) (w : World B).

Lemma AttachmentCompactionManager_Init_frame (options : gmap string Value)
    (clusterStatus : option bytes) a w r a' w' :
  AttachmentCompactionManager_Init options clusterStatus a w = Some (r, a', w') ->
  bucket w' = bucket w /\ terminators w' = terminators w /\
  nextTerminator w' = nextTerminator w /\ clock w' = clock w /\
  goroutines w' = goroutines w.
Proof.
  unfold AttachmentCompactionManager_Init.
  destruct (options !! "database") as [[| | |]|]; try discriminate.
  assert (forall a0,
             let '(r0, a1, w1) :=
               newRunInit options a0 (set_CompactionAttachmentStartTime (nowUnix w) w) in
             bucket w1 = bucket w /\ terminators w1 = terminators w /\
             nextTerminator w1 = nextTerminator w /\ clock w1 = clock w /\
             goroutines w1 = goroutines w) as Hnew.
  { intros a0. unfold newRunInit, NewRandom. cbn [entropy set_CompactionAttachmentStartTime].
    destruct (entropy w) as [|[u|e0] rest]; cbn; try (repeat split; fail).
    destruct (assertBool _); repeat split. }
  destruct clusterStatus as [bs|].
  - destruct (JSONUnmarshal_AttachmentManagerResponse bs) as [resp err].
    destruct (assertBool (options !! "reset")) as [reset ok].
    destruct (_ || _).
    + intros Heq. specialize (Hnew a).
      destruct (newRunInit _ _ _) as [[r0 a1] w1]. inversion Heq; subst. exact Hnew.
    + intros Heq. inversion Heq; subst. repeat split.
  - intros Heq. specialize (Hnew a).
    destruct (newRunInit _ _ _) as [[r0 a1] w1]. inversion Heq; subst. exact Hnew.
Qed.

(** X19. A [Start] of attachment compaction that succeeds leaves the manager
    RUNNING, started at the current time, without error, on a terminator
    that is open; it has started the run task last, after the heartbeat
    renewer and the status publisher when the manager is cluster aware, and
    no other goroutine. *)
Theorem Start_attachment_success (options : gmap string Value)
    (b b' : BackgroundManager AttachmentCompactionManager) w w' :
  Start SyncPrefix options b w = Some (None, b', w') ->
  State (Status b') = BackgroundProcessStateRunning /\
  StartTime (Status b') = clock w /\
  lastError b' = None /\ LastErrorMessage (Status b') = "" /\
  terminator b' = nextTerminator w /\
  IsClosed (terminator b') w' = false /\
  goroutines w'
  = goroutines w ++ (if isClusterAware b
                     then [HeartbeatRenewer; StatusPublisher; RunTask options]
                     else [RunTask options]).
Proof.
  unfold Start. intros HStart.
  destruct (markStart SyncPrefix b w) as [[[e0|] b1] w1] eqn:Hms; [discriminate|].
  destruct (markStart_success_world SyncPrefix b b1 w w1 Hms)
    as (Hclock & _ & Hgo & Hstatus & Hterm & Hopts & Hfresh).
  assert (State (Status b1) = BackgroundProcessStateRunning) as Hrun
    by (rewrite Hstatus; reflexivity).
  assert (IsClosed (terminator b1) w1 = false) as Hopen
    by (unfold IsClosed; rewrite Hterm, Hfresh; reflexivity).
  set (fetched := match clusterAwareOptions b1 with Some _ => _ | None => _ end)
    in HStart.
  assert (sameOutsideBucket w1 (snd fetched)) as Hfetch.
  { unfold fetched. destruct (clusterAwareOptions b1) as [o|];
      [|apply sameOutsideBucket_refl].
    destruct (GetRaw _ _) as [[[v c]|err] bk]; [apply sameOutsideBucket_set|].
    destruct (negb _); apply sameOutsideBucket_set. }
  destruct fetched as [[pcs [e1|]] w2]; [discriminate|]. cbn [snd] in Hfetch.
  apply sameOutsideBucket_fields in Hfetch as (Ht2 & Hn2 & Hc2 & _ & Hg2).
  cbn [Init AttachmentCompactionManager_process] in HStart.
  destruct (AttachmentCompactionManager_Init _ _ _ _) as [[[[e2|] p] w3]|] eqn:Hinit;
    try discriminate.
  apply AttachmentCompactionManager_Init_frame in Hinit as (_ & Ht3 & Hn3 & Hc3 & Hg3).
  set (bnew := set_Process p
                 (set_Status (with_StartTime (clock w2) (Status (resetStatus b1)))
                    (resetStatus b1))) in HStart.
  assert (isClusterAware bnew = isClusterAware b) as Hca.
  { unfold isClusterAware, bnew. cbn. rewrite Hopts. reflexivity. }
  rewrite Hca in HStart.
  assert (State (Status bnew) = BackgroundProcessStateRunning /\
          StartTime (Status bnew) = clock w /\
          lastError bnew = None /\ LastErrorMessage (Status bnew) = "" /\
          terminator bnew = nextTerminator w) as (H1 & H2 & H3 & H4 & H5).
  { unfold bnew. cbn. repeat split; congruence. }
  assert (terminator bnew = terminator b1) as Htb by reflexivity.
  clearbody bnew.
  destruct (isClusterAware b); inversion HStart; subst b' w'; clear HStart.
  - pose proof (UpdateStatusClusterAware_sameOutsideBucket SyncPrefix bnew
                  (spawn (RunTask options) (spawn StatusPublisher w3))) as Hframe.
    apply sameOutsideBucket_fields in Hframe as (Ht5 & _ & _ & _ & Hg5).
    repeat (split; [assumption|]). split.
    + unfold IsClosed in *. rewrite Ht5, Htb. cbn. rewrite Ht3, Ht2. exact Hopen.
    + rewrite Hg5. cbn. rewrite Hg3, Hg2, Hgo, <- !app_assoc. reflexivity.
  - repeat (split; [assumption|]). split.
    + unfold IsClosed in *. rewrite Htb. cbn. rewrite Ht3, Ht2. exact Hopen.
    + cbn. rewrite Hg3, Hg2, Hgo, app_nil_r. reflexivity.
Qed.

(** X20. What a manager publishes is what a later [Init] resumes from.
    Let [bs] be the local status of an attachment compaction manager, as
    [getStatusLocal] has [GetProcessStatus] encode it, and let the codec
    decode [bs] to whatever it encoded into it. Given to [Init], on any
    node, [bs] restores the process of that manager exactly (compact ID,
    phase, dry-run flag and both counters) when the manager was in a state
    other than COMPLETED and the empty one and [reset] is not true. A manager
    in state COMPLETED, or one that has never run (its empty state is
    published as COMPLETED), or a [reset], makes [Init] start a new run
    instead. *)
Theorem Init_resumes_published_status (options : gmap string Value)
    (b : BackgroundManager AttachmentCompactionManager) a0 w bs :
  options !! "database" = Some VDatabase ->
  (forall r, JSONMarshal_AttachmentManagerResponse r = Ok bs ->
             JSONUnmarshal_AttachmentManagerResponse bs = (r, None)) ->
  fst (getStatusLocal b) = Ok bs ->
  let w' := set_CompactionAttachmentStartTime (nowUnix w) w in
  (State (Status b) <> "" ->
   State (Status b) <> BackgroundProcessStateCompleted ->
   options !! "reset" <> Some (VBool true) ->
     AttachmentCompactionManager_Init options (Some bs) a0 w
     = Some (None, Process b, w')) /\
  (State (Status b) = "" \/ State (Status b) = BackgroundProcessStateCompleted
   \/ options !! "reset" = Some (VBool true) ->
     AttachmentCompactionManager_Init options (Some bs) a0 w
     = Some (newRunInit options a0 w')).
Proof.
  intros Hdb Hcodec Hpublished w'. subst w'.
  unfold getStatusLocal in Hpublished. cbn [fst] in Hpublished.
  cbn [GetProcessStatus AttachmentCompactionManager_process] in Hpublished.
  unfold AttachmentCompactionManager_GetProcessStatus in Hpublished.
  apply Hcodec in Hpublished.
  unfold AttachmentCompactionManager_Init. rewrite Hdb, Hpublished.
  cbn [amr_Status amr_CompactID amr_Phase amr_DryRun amr_MarkedAttachments
       amr_PurgedAttachments].
  rewrite (bool_decide_eq_false_2 (is_Some (@None error)))
    by (intros [? ?]; discriminate).
  rewrite orb_false_r.
  assert (forall st : BackgroundManagerStatus,
             State (match lastError b with
                    | Some e => with_LastErrorMessage (Error e) st
                    | None => st
                    end) = State st) as Herr
    by (intros st; destruct (lastError b); reflexivity).
  rewrite Herr.
  split.
  - intros Hempty Hcompleted Hreset.
    destruct (String.eqb_spec (State (Status b)) "") as [|_]; [contradiction|].
    destruct (String.eqb_spec (State (Status b)) BackgroundProcessStateCompleted)
      as [|_]; [contradiction|].
    assert ((let '(reset, ok) := assertBool (options !! "reset") in reset && ok) = false)
      as Hr.
    { destruct (options !! "reset") as [[[|]| | |]|]; try reflexivity. contradiction. }
    destruct (assertBool (options !! "reset")) as [reset ok]. rewrite Hr.
    cbn [orb]. destruct (Process b). reflexivity.
  - intros Hfresh.
    destruct (String.eqb_spec (State (Status b)) "") as [_|Hempty].
    { destruct (assertBool (options !! "reset")); reflexivity. }
    destruct (String.eqb_spec (State (Status b)) BackgroundProcessStateCompleted)
      as [_|Hcompleted].
    { destruct (assertBool (options !! "reset")); reflexivity. }
    destruct Hfresh as [? | [? | Hreset]]; [contradiction | contradiction |].
    rewrite Hreset. reflexivity.
Qed.
End MoreAttachmentProperties.

Section RunProperties.
Context {B : Type} `{!Bucket B} `{!JSONCodec} `{!DatabaseOps B}.
Variable cb : updateStatusCallbackFunc B AttachmentCompactionManager.
Variable t : nat.

Implicit Types (a : AttachmentCompactionManager) (w : World B).

Lemma caseCleanup_process a w tr :
  let a' := snd (fst (fst (caseCleanup cb t a w tr))) in
  CompactID a' = CompactID a /\ dryRun a' = dryRun a /\
  MarkedAttachments a' = MarkedAttachments a /\
  PurgedAttachments a' = PurgedAttachments a.
Proof.
  cbv zeta. unfold caseCleanup, persistClusterStatus.
  destruct (cb _ w) as [e0 w1]. destruct (Cleanup _ t w1) as [err w2].
  destruct (_ || _); repeat split.
Qed.

Lemma caseSweep_process a w tr :
  let a' := snd (fst (fst (caseSweep cb t a w tr))) in
  CompactID a' = CompactID a /\ dryRun a' = dryRun a /\
  MarkedAttachments a' = MarkedAttachments a.
Proof.
  cbv zeta. unfold caseSweep, persistClusterStatus.
  destruct (cb _ w) as [e0 w1]. destruct (Sweep _ _ t _ w1) as [[purged err] w2].
  destruct (_ || _); [repeat split|].
  destruct (caseCleanup_process (set_PurgedAttachments purged (SetPhase "sweep" a)) w2
              ((tr ++ [EvSetPhase "sweep"]) ++ [EvPersist "sweep"]
               ++ [EvSweep err (IsClosed t w2)])) as (Hc & Hd & Hm & _).
  rewrite app_assoc in Hc, Hd, Hm.
  cbv zeta in Hc, Hd, Hm. cbn [SetPhase Phase] in *. rewrite Hc, Hd, Hm. repeat split.
Qed.

Lemma caseMark_process a w tr :
  let a' := snd (fst (fst (caseMark cb t a w tr))) in
  CompactID a' = CompactID a /\ dryRun a' = dryRun a.
Proof.
  cbv zeta. unfold caseMark, persistClusterStatus.
  destruct (cb _ w) as [e0 w1]. destruct (Mark _ t _ w1) as [[marked err] w2].
  destruct (_ || _); [repeat split|].
  destruct (caseSweep_process (set_MarkedAttachments marked (SetPhase "mark" a)) w2
              ((tr ++ [EvSetPhase "mark"]) ++ [EvPersist "mark"]
               ++ [EvMark err (IsClosed t w2)])) as (Hc & Hd & _).
  rewrite app_assoc in Hc, Hd.
  cbv zeta in Hc, Hd. cbn [SetPhase Phase] in *. rewrite Hc, Hd. repeat split.
Qed.

(** The process of a run result, in terms of the switch. *)
Lemma Run_process (options : gmap string Value) a w r :
  AttachmentCompactionManager_Run cb t options a w = Some r ->
  let cases :=
    if (Phase a =? "mark") || (Phase a =? "") then caseMark cb t a w []
    else if Phase a =? "sweep" then caseSweep cb t a w []
    else if Phase a =? "cleanup" then caseCleanup cb t a w []
    else (LeaveSwitch, a, w, []) in
  let a' := snd (fst (fst cases)) in
  CompactID (run_process r) = CompactID a' /\ dryRun (run_process r) = dryRun a' /\
  MarkedAttachments (run_process r) = MarkedAttachments a' /\
  PurgedAttachments (run_process r) = PurgedAttachments a'.
Proof.
  unfold AttachmentCompactionManager_Run.
  destruct (options !! "database") as [[| | |]|]; try discriminate.
  cbv zeta.
  destruct (if (Phase a =? "mark") || (Phase a =? "") then _ else _)
    as [[[fl a'] w'] tr].
  unfold persistClusterStatus. cbn [fst snd].
  destruct fl as [err|].
  - destruct (cb a' w') as [e0 w1]. intros Heq. inversion Heq; subst. repeat split.
  - destruct (cb (SetPhase "" a') w') as [e0 w1]. intros Heq. inversion Heq; subst.
    repeat split.
Qed.

(** X21. [Run] panics exactly when the options carry no database handle;
    otherwise it returns, and whatever its phases do and however it ends, the
    compact ID and the dry-run flag of the process are those it started
    with. *)
Theorem Run_keeps_identity (options : gmap string Value) a w :
  (AttachmentCompactionManager_Run cb t options a w = None <->
   options !! "database" <> Some VDatabase) /\
  (forall r,
     AttachmentCompactionManager_Run cb t options a w = Some r ->
     CompactID (run_process r) = CompactID a /\ dryRun (run_process r) = dryRun a).
Proof.
  split.
  - unfold AttachmentCompactionManager_Run.
    destruct (options !! "database") as [[| | |]|]; try (split; congruence).
    destruct (if (Phase a =? "mark") || (Phase a =? "") then _ else _)
      as [[[fl a'] w'] tr].
    destruct fl; unfold persistClusterStatus; destruct (cb _ w'); split; congruence.
  - intros r Hrun. apply Run_process in Hrun as (-> & -> & _ & _).
    destruct ((Phase a =? "mark") || (Phase a =? "")).
    { apply caseMark_process. }
    destruct (Phase a =? "sweep").
    { destruct (caseSweep_process a w []) as (Hc & Hd & _). split; assumption. }
    destruct (Phase a =? "cleanup").
    { destruct (caseCleanup_process a w []) as (Hc & Hd & _). split; assumption. }
    split; reflexivity.
Qed.

(** X22. A resumed run does not count again what earlier phases counted: one
    that starts at "sweep" or "cleanup" leaves the number of marked
    attachments as it was, and one that starts at "cleanup" the number of
    purged attachments too. *)
Theorem Run_resumed_counters (options : gmap string Value) a w r :
  AttachmentCompactionManager_Run cb t options a w = Some r ->
  (Phase a = "sweep" \/ Phase a = "cleanup" ->
     MarkedAttachments (run_process r) = MarkedAttachments a) /\
  (Phase a = "cleanup" ->
     PurgedAttachments (run_process r) = PurgedAttachments a).
Proof.
  intros Hrun. apply Run_process in Hrun as (_ & _ & Hm & Hp).
  cbv zeta in Hm, Hp. split.
  - intros [Hph | Hph]; rewrite Hph in Hm; cbn in Hm; rewrite Hm.
    + apply caseSweep_process.
    + apply caseCleanup_process.
  - intros Hph. rewrite Hph in Hp. cbn in Hp. rewrite Hp.
    apply caseCleanup_process.
Qed.

(** X23. A phase field that names no phase (a value other than "", "mark",
    "sweep" and "cleanup", which a status document can carry into [Init])
    makes [Run] do no work: no phase function is called, the phase field is
    emptied, the status persisted once, nil returned, and the run counts as
    complete. *)
Theorem Run_unknown_phase (options : gmap string Value) a w :
  options !! "database" = Some VDatabase ->
  Phase a <> "" -> Phase a <> "mark" -> Phase a <> "sweep" -> Phase a <> "cleanup" ->
  AttachmentCompactionManager_Run cb t options a w
  = Some (mkRunResult None (SetPhase "" a) (snd (cb (SetPhase "" a) w))
            [EvSetPhase ""; EvPersist ""]).
Proof.
  intros Hdb H0 H1 H2 H3. unfold AttachmentCompactionManager_Run. rewrite Hdb.
  destruct (String.eqb_spec (Phase a) "mark"); [contradiction|].
  destruct (String.eqb_spec (Phase a) ""); [contradiction|].
  destruct (String.eqb_spec (Phase a) "sweep"); [contradiction|].
  destruct (String.eqb_spec (Phase a) "cleanup"); [contradiction|].
  cbn [orb]. unfold persistClusterStatus.
  destruct (cb (SetPhase "" a) w) as [e0 w1]. reflexivity.
Qed.

(** X24. Cancellation is looked at after a phase only: a run whose
    terminator is closed before it starts (and is not reopened by the
    callback or the phase function) still does the whole first phase, once,
    and nothing after it. With [p] the phase it starts at, its result is
    exactly this: the status callback is called on the process with the
    phase field at [p], the phase function of [p] is called on that process
    in the world the callback left, the error returned is the error of that
    call, the process returned is the one that call left (its counter as the
    phase function counted it, the phase field still at [p]), and the world
    returned is what the final status callback made of the world after the
    call. No later phase function is called and the phase field is not
    emptied. *)
Theorem Run_cancelled_before_start (options : gmap string Value) a w :
  options !! "database" = Some VDatabase ->
  IsClosed t w = true ->
  (forall p w0, IsClosed t w0 = true -> IsClosed t (snd (cb p w0)) = true) ->
  (forall c n w0, IsClosed t w0 = true -> IsClosed t (snd (Mark c t n w0)) = true) ->
  (forall c d n w0, IsClosed t w0 = true -> IsClosed t (snd (Sweep c d t n w0)) = true) ->
  (forall c w0, IsClosed t w0 = true -> IsClosed t (snd (Cleanup c t w0)) = true) ->
  forall p, head (ladder_from (Phase a)) = Some p ->
  forall a2 err w2,
    phase_call t p (SetPhase p a) (snd (cb (SetPhase p a) w)) = (a2, err, w2) ->
    AttachmentCompactionManager_Run cb t options a w
    = Some (mkRunResult err a2 (snd (cb a2 w2)) (stage p err true ++ [EvPersist p])) /\
    Phase a2 = p /\ CompactID a2 = CompactID a /\ dryRun a2 = dryRun a.
Proof.
  intros Hdb Hclosed Hcb HMark HSweep HCleanup p Hhead a2 err w2 Hcall.
  unfold AttachmentCompactionManager_Run. rewrite Hdb.
  unfold ladder_from in Hhead. unfold phase_call in Hcall.
  destruct ((Phase a =? "mark") || (Phase a =? "")).
  { inversion Hhead; subst p. cbn [String.eqb Ascii.eqb Bool.eqb] in Hcall.
    unfold caseMark, persistClusterStatus.
    pose proof (Hcb (SetPhase "mark" a) w Hclosed) as Hc1.
    destruct (cb (SetPhase "mark" a) w) as [e0 w1]. cbn [snd] in Hc1, Hcall.
    pose proof (HMark (CompactID (SetPhase "mark" a))
                  (MarkedAttachments (SetPhase "mark" a)) w1 Hc1) as Hc2.
    destruct (Mark _ t _ w1) as [[marked err'] w2']. cbn [snd] in Hc2.
    inversion Hcall; subst a2 err w2.
    rewrite Hc2, orb_true_r. destruct (cb _ w2') as [e1 w3].
    split; [reflexivity|]. split; [reflexivity|]. split; reflexivity. }
  destruct (Phase a =? "sweep").
  { inversion Hhead; subst p. cbn [String.eqb Ascii.eqb Bool.eqb] in Hcall.
    unfold caseSweep, persistClusterStatus.
    pose proof (Hcb (SetPhase "sweep" a) w Hclosed) as Hc1.
    destruct (cb (SetPhase "sweep" a) w) as [e0 w1]. cbn [snd] in Hc1, Hcall.
    pose proof (HSweep (CompactID (SetPhase "sweep" a)) (dryRun (SetPhase "sweep" a))
                  (PurgedAttachments (SetPhase "sweep" a)) w1 Hc1) as Hc2.
    destruct (Sweep _ _ t _ w1) as [[purged err'] w2']. cbn [snd] in Hc2.
    inversion Hcall; subst a2 err w2.
    rewrite Hc2, orb_true_r. destruct (cb _ w2') as [e1 w3].
    split; [reflexivity|]. split; [reflexivity|]. split; reflexivity. }
  destruct (Phase a =? "cleanup"); [|discriminate].
  inversion Hhead; subst p. cbn [String.eqb Ascii.eqb Bool.eqb] in Hcall.
  unfold caseCleanup, persistClusterStatus.
  pose proof (Hcb (SetPhase "cleanup" a) w Hclosed) as Hc1.
  destruct (cb (SetPhase "cleanup" a) w) as [e0 w1]. cbn [snd] in Hc1, Hcall.
  pose proof (HCleanup (CompactID (SetPhase "cleanup" a)) w1 Hc1) as Hc2.
  destruct (Cleanup _ t w1) as [err' w2']. cbn [snd] in Hc2.
  inversion Hcall; subst a2 err w2.
  rewrite Hc2, orb_true_r. destruct (cb _ w2') as [e1 w3].
  split; [reflexivity|]. split; [reflexivity|]. split; reflexivity.
Qed.

(** *** Resync *)

(** X25. A resync run panics unless the options carry the database handle
    and a boolean [regenerateSequences]. Otherwise it returns the error of
    the scan, keeps the counters the scan reported, and never leaves the
    database in the resyncing state, whether the scan failed or not (that
    state being another than the offline one): the world it leaves is that of
    the scan, but for a resyncing database set offline. *)
Theorem ResyncManager_Run_outcome (options : gmap string Value)
    (cbr : updateStatusCallbackFunc B ResyncManager) (r : ResyncManager) w :
  (ResyncManager_Run options cbr t r w = None <->
   ~ (options !! "database" = Some VDatabase /\
      exists g, options !! "regenerateSequences" = Some (VBool g))) /\
  (forall g res,
     options !! "regenerateSequences" = Some (VBool g) ->
     ResyncManager_Run options cbr t r w = Some res ->
     let '(docsProcessed, docsChanged, err, w1) :=
       UpdateAllDocChannels g t (DocsProcessed r, DocsChanged r) w in
     run_err res = err /\
     run_process res = mkResyncManager docsProcessed docsChanged /\
     (DBResyncing <> DBOffline -> DatabaseState (run_world res) <> DBResyncing) /\
     (DatabaseState w1 <> DBResyncing -> run_world res = w1) /\
     (DatabaseState w1 = DBResyncing -> run_world res = set_DatabaseState DBOffline w1)).
Proof.
  unfold ResyncManager_Run. split.
  - destruct (options !! "database") as [[| | |]|];
      try (split; [intros _ [Hdb _]; discriminate | reflexivity]).
    destruct (options !! "regenerateSequences") as [[g| | |]|];
      try (split; [intros _ [_ [g' Hg]]; discriminate | reflexivity]).
    destruct (UpdateAllDocChannels _ _ _ _) as [[[dp dc] err] w1].
    split; [discriminate|]. intros Hno. exfalso. apply Hno. eauto.
  - intros g res Hg. rewrite Hg.
    destruct (options !! "database") as [[| | |]|]; try discriminate.
    destruct (UpdateAllDocChannels _ _ _ _) as [[[dp dc] err] w1].
    intros Heq. inversion Heq; subst; clear Heq. cbn [run_err run_process run_world].
    split; [reflexivity|]. split; [reflexivity|].
    destruct (Z.eqb_spec (DatabaseState w1) DBResyncing) as [Heqs|Hne].
    + split; [|split]; [| contradiction | reflexivity].
      intros Hdiff. cbn. congruence.
    + split; [|split]; [| reflexivity | contradiction].
      intros _. exact Hne.
Qed.
End RunProperties.

Section TombstoneProperties.
Context {B : Type}.
Variable Compact : bool -> nat -> Z -> World B * Z -> Z * option error * (World B * Z).
Variables DBCompactRunning DBCompactNotRunning : Z.

(** X26. A tombstone compaction run, given the database handle, calls
    [Compact] once, skipping its running-state check, returns its error and
    keeps its purge count; whether it failed or not, the compaction state is
    not left at "running" (that state being another than "not running"). *)
Theorem TombstoneCompactionManager_Run_outcome (options : gmap string Value)
    (t : nat) (tm : TombstoneCompactionManager) (w : World B) (CompactState : Z) :
  options !! "database" = Some VDatabase ->
  DBCompactRunning <> DBCompactNotRunning ->
  let '(docsPurged, err, (w1, cs1)) :=
    Compact true t (PurgedDocCount tm) (w, CompactState) in
  exists cs2,
    TombstoneCompactionManager_Run Compact DBCompactRunning DBCompactNotRunning
      options t tm w CompactState
    = Some (err, mkTombstoneCompactionManager docsPurged, (w1, cs2)) /\
    cs2 <> DBCompactRunning /\
    (cs1 <> DBCompactRunning -> cs2 = cs1).
Proof.
  intros Hdb Hdiff. unfold TombstoneCompactionManager_Run. rewrite Hdb.
  destruct (Compact _ _ _ _) as [[docsPurged err] [w1 cs1]].
  destruct (Z.eqb_spec cs1 DBCompactRunning) as [Heq|Hne].
  - eexists. split; [reflexivity|]. split; [congruence | contradiction].
  - eexists. split; [reflexivity|]. split; [assumption | reflexivity].
Qed.
End TombstoneProperties.

(** * The manager at work: evaluation on the reference instances *)

Import Ref.

(** C1 at work: a run that fails in state RUNNING ends in ERROR with the
    error recorded and the terminator closed; one that returns nil in state
    STOPPING ends in STOPPED. *)
Lemma runTask_afterRun_transitions_witness :
  (let r := runTask_afterRun SyncPrefix (Some run_failed) (resyncIn "running")
              (worldWith 0 false [] []) in
   State (Status (fst r)) = "error" /\ lastError (fst r) = Some run_failed
   /\ IsClosed 0 (snd r) = true) /\
  State (Status (fst (runTask_afterRun SyncPrefix None (resyncIn "stopping")
                        (worldWith 0 false [] [])))) = "stopped".
Proof.
  split.
  - destruct (runTask_afterRun_transitions SyncPrefix (Some run_failed)
                (resyncIn "running") (worldWith 0 false [] []))
      as (Hrec & _ & Hclosed & Hpromote & _ & _).
    destruct (Hrec run_failed eq_refl) as [Herr Hstate].
    cbv zeta. rewrite Hpromote. split; [|split].
    + reflexivity.
    + reflexivity.
    + exact Hclosed.
  - destruct (runTask_afterRun_transitions SyncPrefix None
                (resyncIn "stopping") (worldWith 0 false [] []))
      as (_ & Hnone & _ & Hpromote & Hstopping & _).
    rewrite Hpromote, (Hnone eq_refl). apply Hstopping. reflexivity.
Defined.

(** C8, where the code departs from the claim: in local mode, in state
    ERROR, [markStop] does not answer "Process already stopped". A resync
    whose run has failed is left in state ERROR by its run task, which has
    ended by then. A [Stop] on that manager returns nil and moves it to
    STOPPING; no task is left to move it on to STOPPED, so that every later
    [Stop] is refused as "already stopping" and every later start as
    "currently stopping", with the manager still in STOPPING. *)
Theorem markStop_local_error_gets_stuck :
  let '(failed, w) :=
    runTask_afterRun SyncPrefix (Some run_failed) (resyncIn "running")
      (worldWith 0 false [] []) in
  State (Status failed) = BackgroundProcessStateError /\
  clusterAwareOptions failed = None /\
  fst (fst (markStop SyncPrefix failed w)) <> Some processAlreadyStoppedErr /\
  markStop SyncPrefix failed w
  = (None, set_State BackgroundProcessStateStopping failed, w) /\
  let '(err, stuck, w') := Stop SyncPrefix failed w in
  err = None /\
  State (Status stuck) = BackgroundProcessStateStopping /\
  goroutines w' = [] /\
  Stop SyncPrefix stuck w'
  = (Some (HTTPError StatusServiceUnavailable "Process already stopping"),
     stuck, w') /\
  Start SyncPrefix options_db stuck w'
  = Some (Some (HTTPError StatusServiceUnavailable
                  "Process currently stopping. Wait until stopped to retry"),
          stuck, w').
Proof.
  vm_compute. repeat split; discriminate.
Qed.

(** The local branch of [markStop] at work: a completed resync answers
    "Process already stopped"; one in state ERROR is moved to STOPPING. *)
Example markStop_local_at_work :
  markStop SyncPrefix (resyncIn "completed") (worldWith 0 true [] [])
  = (Some processAlreadyStoppedErr, resyncIn "completed", worldWith 0 true [] []) /\
  markStop SyncPrefix (resyncIn "error") (worldWith 0 true [] [])
  = (None, set_State "stopping" (resyncIn "error"), worldWith 0 true [] []).
Proof.
  split.
  - apply (markStop_local SyncPrefix (resyncIn "completed") _ eq_refl).
    left. reflexivity.
  - apply (markStop_local SyncPrefix (resyncIn "error") _ eq_refl); discriminate.
Qed.

(** C9 at work: the bucket times out while a running manager is asked to
    stop. [Stop] fails; the manager is as before and its terminator is
    still open, though the bucket has served a request. *)
Lemma Stop_error_frame_witness :
  let b := compactionIn "running" stoppedInSweep 0 in
  let w := worldWith 0 false [Some bucket_timeout] [] in
  let w' := worldWith 0 false [] [] in
  let e := HTTPError StatusInternalServerError
             ("Unable to verify whether a process is running: "
              +:+ Error bucket_timeout) in
  Stop SyncPrefix b w = (Some e, b, w') /\
  State (Status b) = "running" /\
  IsClosed (terminator b) w' = false.
Proof.
  cbv zeta.
  assert (Stop SyncPrefix (compactionIn "running" stoppedInSweep 0)
            (worldWith 0 false [Some bucket_timeout] [])
          = (Some (HTTPError StatusInternalServerError
                     ("Unable to verify whether a process is running: "
                      +:+ Error bucket_timeout)),
             compactionIn "running" stoppedInSweep 0, worldWith 0 false [] []))
    as HStop by (vm_compute; reflexivity).
  destruct (Stop_error_frame SyncPrefix _ _ _ _ _ HStop)
    as (_ & _ & Hstate & _ & Hclosed).
  split; [exact HStop|]. split; [reflexivity|].
  rewrite Hclosed. reflexivity.
Defined.

(** *** A dead run *)

(** C2 at work: another node reads the status of the dead run; the bytes it
    gets decode to a document whose status is "stopped", and the status
    document in the bucket now holds these bytes. *)
Lemma GetStatus_heals_dead_run_witness :
  exists patched w' m,
    GetStatus SyncPrefix freshCompaction deadRunWorld = Some (Some patched, None, w') /\
    JSONUnmarshal_map patched = Ok m /\
    m !! "status" = Some (JString "stopped") /\
    fst <$> (docs (bucket w') !! StatusDocID SyncPrefix compactOptions)
    = Some (patched, 2%Z).
Proof.
  destruct (GetStatus_heals_dead_run SyncPrefix freshCompaction deadRunWorld
              compactOptions runningStatus 1 deadRunBucket
              (list_to_map
                 [("status", JString "running");
                  ("start_time", JNumber 1700000000000000000);
                  ("last_error", JString "");
                  ("marked_attachments", JNumber 500);
                  ("purged_attachments", JNumber 120);
                  ("compact_id", JString "uuid-1");
                  ("phase", JString "sweep")])
              "running" DocNotFound deadRunBucket)
    as [Hhealed Hget].
  - reflexivity.
  - vm_compute. reflexivity.
  - vm_compute. reflexivity.
  - vm_compute. reflexivity.
  - left. reflexivity.
  - vm_compute. reflexivity.
  - reflexivity.
  - cbv zeta in Hget. rewrite Hget. clear Hget Hhealed.
    eexists _, _, _. split; [vm_compute; reflexivity|].
    split; [vm_compute; reflexivity|].
    split; vm_compute; reflexivity.
Defined.

(** *** A bucket that fails *)

(** C3, where the code departs from the claim: the write of the heartbeat
    document fails with an error that is not a CAS mismatch. [markStart] does
    not return it: it returns nil, starts the heartbeat renewer and sets the
    state to RUNNING, while no heartbeat document exists. *)
Lemma markStart_drops_write_error :
  let w := worldWith 1700000000000000000 false [Some bucket_timeout] [] in
  let r := markStart SyncPrefix freshCompaction w in
  IsCasMismatch (Some bucket_timeout) = false /\
  fst (fst r) = None /\
  State (Status (snd (fst r))) = "running" /\
  goroutines (snd r) = [HeartbeatRenewer] /\
  docs (bucket (snd r)) !! HeartbeatDocID SyncPrefix compactOptions = None.
Proof. cbv zeta. repeat split; vm_compute; reflexivity. Qed.

(** C4, where the code departs from the claim: a renewal fails (not with
    doc-not-found) one second after the last successful heartbeat, well
    within the 29 seconds of grace. The error is returned all the same, since
    the bound the elapsed time is compared with is 29 nanoseconds; the
    renewer then sets the state to ERROR and closes the terminator. *)
Lemma UpdateHeartbeat_escalates_within_grace :
  let beat := 1700000000%Z in
  let b := compactionIn "running" stoppedInSweep beat in
  let w := worldWith ((beat + 1) * Second) false [Some bucket_timeout] [] in
  let w' := worldWith ((beat + 1) * Second) false [] [] in
  IsDocNotFoundError bucket_timeout = false /\
  Sub (clock w) (Unix beat) = (1 * Second)%Z /\
  (1 * Second <= (BackgroundManagerHeartbeatExpirySecs
                  - BackgroundManagerHeartbeatIntervalSecs) * Second)%Z /\
  UpdateHeartbeatDocClusterAware SyncPrefix b w = Some (Some bucket_timeout, b, w') /\
  (State <$> (Status <$> (fst <$> heartbeatTick SyncPrefix b w))) = Some "error" /\
  (IsClosed 0 <$> (snd <$> heartbeatTick SyncPrefix b w)) = Some true.
Proof.
  cbv zeta. repeat split; try (vm_compute; reflexivity).
  vm_compute. discriminate.
Qed.

(** Within the same second the same failure is swallowed. *)
Example UpdateHeartbeat_swallows_within_29ns :
  let beat := 1700000000%Z in
  let b := compactionIn "running" stoppedInSweep beat in
  UpdateHeartbeatDocClusterAware SyncPrefix b
    (worldWith (beat * Second + 29) false [Some bucket_timeout] [])
  = Some (None, b, worldWith (beat * Second + 29) false [] []).
Proof. vm_compute. reflexivity. Qed.

(** *** Resuming and restarting *)

(** C5 at work: on the status of the dead run [Init] resumes where it
    stopped; without prior status it starts afresh with the next UUID. *)
Lemma Init_fresh_or_resume_witness :
  let a := mkAttachmentCompactionManager 0 0 "" "" false in
  let w1 := set_CompactionAttachmentStartTime (nowUnix deadRunWorld) deadRunWorld in
  AttachmentCompactionManager_Init options_db (Some runningStatus) a deadRunWorld
  = Some (None, stoppedInSweep, w1) /\
  AttachmentCompactionManager_Init options_db None a deadRunWorld
  = Some (None, mkAttachmentCompactionManager 0 0 "uuid-2" "" false, set_entropy [] w1).
Proof.
  cbv zeta. split.
  - destruct (Init_fresh_or_resume options_db (Some runningStatus)
                (mkAttachmentCompactionManager 0 0 "" "" false) deadRunWorld eq_refl)
      as (_ & _ & Hresume & _).
    apply (Hresume runningStatus
             (mkAttachmentManagerResponse
                (mkBackgroundManagerStatus "running" 1700000000000000000 "")
                500 120 "uuid-1" "sweep" false)).
    + reflexivity.
    + vm_compute. reflexivity.
    + discriminate.
    + vm_compute. discriminate.
  - destruct (Init_fresh_or_resume options_db None
                (mkAttachmentCompactionManager 0 0 "" "" false) deadRunWorld eq_refl)
      as (Hnone & _ & _ & Hfresh).
    rewrite (Hnone eq_refl). rewrite (Hfresh "uuid-2" [] eq_refl). reflexivity.
Defined.

(** C6 at work: a run that finds "sweep" in the phase field. *)
Lemma Run_phase_ladder_witness :
  exists r,
    AttachmentCompactionManager_Run (publish (compactionIn "running" stoppedInSweep 0)) 0
      options_db stoppedInSweep deadRunWorld = Some r /\
    ladder_exec (publish (compactionIn "running" stoppedInSweep 0)) 0
      ["sweep"; "cleanup"] stoppedInSweep deadRunWorld
      (run_events r) (run_err r) (run_process r) (run_world r) /\
    ladder_run ["sweep"; "cleanup"] (run_events r) (run_err r) (Phase (run_process r)).
Proof.
  apply (Run_phase_ladder (publish (compactionIn "running" stoppedInSweep 0)) 0
           options_db stoppedInSweep deadRunWorld).
  - reflexivity.
  - right. right. left. reflexivity.
Defined.

Example Run_from_sweep_events :
  run_events <$>
    AttachmentCompactionManager_Run (publish (compactionIn "running" stoppedInSweep 0)) 0
      options_db stoppedInSweep deadRunWorld
  = Some [EvSetPhase "sweep"; EvPersist "sweep"; EvSweep None false;
          EvSetPhase "cleanup"; EvPersist "cleanup"; EvCleanup None false;
          EvSetPhase ""; EvPersist ""].
Proof. vm_compute. reflexivity. Qed.

(** A run that is stopped while it sweeps keeps "sweep" in the phase field. *)
Example Run_stopped_in_sweep :
  let r := @AttachmentCompactionManager_Run MemBucket (scripted "sweep")
             (publish freshCompaction) 0 options_db
             (mkAttachmentCompactionManager 0 0 "uuid-1" "" false) deadRunWorld in
  (run_process <$> r) = Some stoppedInSweep /\
  (run_events <$> r)
  = Some [EvSetPhase "mark"; EvPersist "mark"; EvMark None false;
          EvSetPhase "sweep"; EvPersist "sweep"; EvSweep None true;
          EvPersist "sweep"].
Proof. cbv zeta. split; vm_compute; reflexivity. Qed.

(** C7, where the code departs from the claim: the node of a run that was
    stopped during Sweep is started again with [reset = true]. The compact ID
    is new and both counters are zero, but the phase field still reads
    "sweep": the run that follows sweeps with the new compact ID and never
    marks. *)
Lemma Start_reset_skips_mark :
  exists b' w' b'' w'',
    options_reset !! "reset" = Some (VBool true) /\
    Start SyncPrefix options_reset stoppedManager stoppedWorld = Some (None, b', w') /\
    Process b' = mkAttachmentCompactionManager 0 0 "uuid-2" "sweep" false /\
    runTask SyncPrefix options_reset b' w'
    = Some (b'', w'',
            [EvSetPhase "sweep"; EvPersist "sweep"; EvSweep None false;
             EvSetPhase "cleanup"; EvPersist "cleanup"; EvCleanup None false;
             EvSetPhase ""; EvPersist ""]) /\
    State (Status b'') = "completed" /\
    Process b'' = mkAttachmentCompactionManager 0 120 "uuid-2" "" false.
Proof.
  eexists _, _, _, _.
  split; [vm_compute; reflexivity|].
  split; [vm_compute; reflexivity|].
  split; [vm_compute; reflexivity|].
  split; [vm_compute; reflexivity|].
  split; vm_compute; reflexivity.
Qed.

(** * The further properties at work *)


(** X2 at work: a completed resync, whose terminator is closed, is started
    again. *)
Lemma markStart_success_fresh_terminator_witness :
  let r := markStart SyncPrefix (resyncIn "completed") (worldWith 0 true [] []) in
  State (Status (snd (fst r))) = BackgroundProcessStateRunning /\
  terminator (snd (fst r)) = nextTerminator (worldWith 0 true [] []) /\
  IsClosed (terminator (snd (fst r))) (snd r) = false /\
  (forall t, t <> nextTerminator (worldWith 0 true [] []) ->
             IsClosed t (snd r) = IsClosed t (worldWith 0 true [] [])) /\
  Process (snd (fst r)) = Process (resyncIn "completed") /\
  lastError (snd (fst r)) = lastError (resyncIn "completed") /\
  clusterAwareOptions (snd (fst r)) = clusterAwareOptions (resyncIn "completed").
Proof.
  apply (markStart_success_fresh_terminator SyncPrefix (resyncIn "completed")
           (worldWith 0 true [] [])).
  reflexivity.
Defined.

(** X3 at work: a running resync is started again. *)
Lemma markStart_refused_frame_witness :
  markStart SyncPrefix (resyncIn "running") (worldWith 0 false [] [])
  = (Some processAlreadyRunningErr, resyncIn "running", worldWith 0 false [] []) /\
  sameOutsideBucket (worldWith 0 false [] []) (worldWith 0 false [] []).
Proof.
  split; [reflexivity|].
  apply (markStart_refused_frame SyncPrefix (resyncIn "running")
           (worldWith 0 false [] []) processAlreadyRunningErr (resyncIn "running")
           (worldWith 0 false [] []) eq_refl).
Defined.

(** X4 at work: a running resync is stopped twice. *)
Lemma Stop_local_once_witness :
  Stop SyncPrefix (resyncIn "running") (worldWith 0 false [] [])
  = (None, resyncIn "stopping", worldWith 0 true [] []) /\
  Stop SyncPrefix (resyncIn "stopping") (worldWith 0 true [] [])
  = (Some (HTTPError StatusServiceUnavailable "Process already stopping"),
     resyncIn "stopping", worldWith 0 true [] []).
Proof.
  destruct (Stop_local_once SyncPrefix (resyncIn "running") (worldWith 0 false [] [])
              eq_refl eq_refl) as (Hfirst & _ & Hsecond).
  split; [exact Hfirst | exact Hsecond].
Defined.

(** X6 at work: the resync that was stopped is started again, before and
    after its run task has ended. *)
Lemma restart_after_stop_local_witness :
  fst (fst (markStart SyncPrefix (resyncIn "stopping") (worldWith 0 true [] [])))
  = Some (HTTPError StatusServiceUnavailable
            "Process currently stopping. Wait until stopped to retry") /\
  fst (fst (markStart SyncPrefix (resyncIn "stopped") (worldWith 0 true [] []))) = None.
Proof.
  pose proof (restart_after_stop_local SyncPrefix (resyncIn "running")
                (worldWith 0 false [] []) eq_refl eq_refl) as Hrestart.
  cbn in Hrestart. destruct Hrestart as (Hrefused & _ & Haccepted).
  split; [exact Hrefused | exact Haccepted].
Defined.

(** X7 at work: a resync whose run failed can be started again. *)
Lemma runTask_afterRun_restartable_witness :
  let '(b', w') := runTask_afterRun SyncPrefix (Some run_failed) (resyncIn "running")
                     (worldWith 0 false [] []) in
  fst (fst (markStart SyncPrefix b' w')) = None.
Proof.
  apply (runTask_afterRun_restartable SyncPrefix (Some run_failed) (resyncIn "running")
           (worldWith 0 false [] []) eq_refl).
Defined.

(** X8 at work: the closed terminator of a stopped resync. *)
Lemma terminators_stay_closed_witness :
  IsClosed 0 (snd (Stop SyncPrefix (resyncIn "stopped") (worldWith 0 true [] [])))
  = true /\
  IsClosed 0 (snd (runTask_afterRun SyncPrefix None (resyncIn "stopped")
                     (worldWith 0 true [] []))) = true.
Proof.
  apply (terminators_stay_closed SyncPrefix None (resyncIn "stopped")
           (worldWith 0 true [] []) 0%nat eq_refl).
Defined.

(** X10 at work: the status of the stopped run is read from another node. *)
Lemma GetStatus_returns_stored_witness :
  GetStatus SyncPrefix freshCompaction stoppedWorld
  = Some (Some stoppedStatus, None, stoppedWorld).
Proof.
  edestruct (GetStatus_returns_stored SyncPrefix freshCompaction stoppedWorld
               compactOptions stoppedStatus) as [Hterminal _].
  - reflexivity.
  - vm_compute. reflexivity.
  - vm_compute. reflexivity.
  - rewrite Hterminal; [vm_compute; reflexivity|].
    intros s Hs. vm_compute in Hs. inversion Hs. left. reflexivity.
Defined.

(** X12 at work: the bucket times out when the status is read. *)
Lemma GetStatus_failures_witness :
  GetStatus SyncPrefix freshCompaction (worldWith 0 false [Some bucket_timeout] [])
  = Some (None, Some bucket_timeout, worldWith 0 false [] []).
Proof.
  destruct (GetStatus_failures SyncPrefix freshCompaction
              (worldWith 0 false [Some bucket_timeout] []) compactOptions eq_refl)
    as (Hread & _ & _).
  apply (Hread bucket_timeout (mkMemBucket ∅ 0 [])); reflexivity.
Defined.

(** X13 at work: the stopped run is asked to stop from its own node, then
    from another node the run under way is. *)
Lemma Stop_cluster_by_heartbeat_witness :
  Stop SyncPrefix stoppedManager stoppedWorld
  = (Some processAlreadyStoppedErr, stoppedManager, stoppedWorld) /\
  Stop SyncPrefix freshCompaction runningWorld
  = (None, freshCompaction, Close 0 flaggedWorld).
Proof.
  split.
  - destruct (Stop_cluster_by_heartbeat SyncPrefix stoppedManager stoppedWorld
                compactOptions eq_refl) as [Habsent _].
    apply (Habsent DocNotFound (bucket stoppedWorld)); vm_compute; reflexivity.
  - destruct (Stop_cluster_by_heartbeat SyncPrefix freshCompaction runningWorld
                compactOptions eq_refl) as [_ Hflag].
    edestruct Hflag as (b' & HStop & _ & Hother).
    + vm_compute. reflexivity.
    + vm_compute. reflexivity.
    + rewrite HStop, Hother by discriminate. vm_compute. reflexivity.
Defined.

(** X14 at work: the runner renews its lease two seconds after it claimed
    the run. *)
Lemma UpdateHeartbeat_renewed_witness :
  exists b' w',
    UpdateHeartbeatDocClusterAware SyncPrefix runningManager
      (set_bucket (bucket runningWorld) (worldWith 1700000002000000000 false [] []))
    = Some (None, b', w') /\
    clusterAwareOptions b' = Some (mkClusterAwareOptions "compact" 1700000002) /\
    State (Status b') = "running".
Proof.
  edestruct (UpdateHeartbeat_renewed SyncPrefix runningManager
               (set_bucket (bucket runningWorld)
                  (worldWith 1700000002000000000 false [] []))
               compactOptions) as (b' & w' & Hupd & Hopts & Hquiet).
  - reflexivity.
  - vm_compute. reflexivity.
  - vm_compute. reflexivity.
  - exists b', w'. split; [exact Hupd|]. split; [exact Hopts|].
    destruct (Hquiet eq_refl) as [-> _]. reflexivity.
Defined.

(** X15 at work: the runner renews its lease after another node asked for a
    stop. *)
Lemma UpdateHeartbeat_should_stop_witness :
  exists b' w',
    UpdateHeartbeatDocClusterAware SyncPrefix runningManager flaggedWorld
    = Some (None, b', w') /\
    State (Status b') = BackgroundProcessStateStopping /\
    IsClosed (terminator runningManager) w' = true.
Proof.
  edestruct (UpdateHeartbeat_should_stop SyncPrefix runningManager flaggedWorld
               compactOptions) as (b' & w' & Hupd & Hstate & Hclosed & _).
  - reflexivity.
  - reflexivity.
  - vm_compute. reflexivity.
  - vm_compute. reflexivity.
  - reflexivity.
  - vm_compute. reflexivity.
  - vm_compute. reflexivity.
  - exists b', w'. split; [exact Hupd|]. split; assumption.
Defined.

(** X16 at work: the heartbeat document of the runner was overwritten with
    text that is not JSON. *)
Lemma heartbeatTick_undecodable_witness :
  exists b' w',
    heartbeatTick SyncPrefix runningManager corruptWorld = Some (b', w') /\
    State (Status b') = BackgroundProcessStateError /\
    lastError b' = Some (Failure "json: syntax error") /\
    IsClosed (terminator runningManager) w' = true.
Proof.
  edestruct (heartbeatTick_undecodable SyncPrefix runningManager corruptWorld
               compactOptions) as (_ & b' & w' & Htick & Hstate & Herr & _ & Hclosed).
  - reflexivity.
  - vm_compute. reflexivity.
  - vm_compute. reflexivity.
  - exists b', w'. split; [exact Htick|]. split; [exact Hstate|].
    split; [exact Herr | exact Hclosed].
Defined.

(** X18 at work: attachment compaction is started where no UUID can be
    drawn. *)
Lemma Start_failure_after_claim_witness :
  exists b' w',
    Start SyncPrefix options_db freshCompaction (worldWith 0 false [] [])
    = Some (Some (Failure "uuid: no entropy"), b', w') /\
    State (Status b') = BackgroundProcessStateRunning /\
    goroutines w' = [HeartbeatRenewer].
Proof.
  eexists _, _. split; [vm_compute; reflexivity|]. split.
  - eapply (Start_failure_after_claim SyncPrefix options_db freshCompaction _
              (worldWith 0 false [] [])).
    + vm_compute. reflexivity.
    + vm_compute. reflexivity.
  - vm_compute. reflexivity.
Defined.

(** X19 at work: attachment compaction is started on the bucket of the dead
    run. *)
Lemma Start_attachment_success_witness :
  exists b' w',
    Start SyncPrefix options_db freshCompaction deadRunWorld = Some (None, b', w') /\
    State (Status b') = BackgroundProcessStateRunning /\
    StartTime (Status b') = clock deadRunWorld /\
    lastError b' = None /\ LastErrorMessage (Status b') = "" /\
    terminator b' = nextTerminator deadRunWorld /\
    IsClosed (terminator b') w' = false /\
    goroutines w' = [HeartbeatRenewer; StatusPublisher; RunTask options_db].
Proof.
  eexists _, _. split; [vm_compute; reflexivity|].
  eapply (Start_attachment_success SyncPrefix options_db freshCompaction _ deadRunWorld).
  vm_compute. reflexivity.
Defined.

(** X20 at work, on the document as [encoding/json] writes it: the runner
    that was in Sweep publishes it, and another node, which holds nothing,
    resumes from it. *)
Lemma Init_resumes_published_status_witness :
  fst (getStatusLocal
         (BackgroundManagerProcessI0 :=
            AttachmentCompactionManager_process (H := encodingJSON))
         (compactionIn "running" stoppedInSweep 0))
  = Ok sweepDocument /\
  AttachmentCompactionManager_Init (H := encodingJSON) options_db (Some sweepDocument)
    (mkAttachmentCompactionManager 0 0 "" "" false) deadRunWorld
  = Some (None, stoppedInSweep,
          set_CompactionAttachmentStartTime (nowUnix deadRunWorld) deadRunWorld).
Proof.
  split; [reflexivity|].
  destruct (Init_resumes_published_status (H := encodingJSON) options_db
              (compactionIn "running" stoppedInSweep 0)
              (mkAttachmentCompactionManager 0 0 "" "" false) deadRunWorld
              sweepDocument) as (Hresume & _).
  - reflexivity.
  - intros r Hr. cbn in Hr.
    destruct (decide (r = sweepResponse)) as [-> |]; [reflexivity | discriminate].
  - reflexivity.
  - apply Hresume; [discriminate | discriminate | vm_compute; discriminate].
Defined.

(** X22 at work: the run that resumes at "sweep". *)
Lemma Run_resumed_counters_witness :
  exists r,
    AttachmentCompactionManager_Run (publish runningManager) 0 options_db
      stoppedInSweep deadRunWorld = Some r /\
    MarkedAttachments (run_process r) = 500%Z /\
    PurgedAttachments (run_process r) = 240%Z.
Proof.
  eexists. split; [vm_compute; reflexivity|]. split.
  - eapply (Run_resumed_counters (publish runningManager) 0 options_db stoppedInSweep
              deadRunWorld).
    + vm_compute. reflexivity.
    + left. reflexivity.
  - vm_compute. reflexivity.
Defined.

(** X23 at work: a run whose phase field reads "sweeping". *)
Lemma Run_unknown_phase_witness :
  run_events <$>
    AttachmentCompactionManager_Run (publish runningManager) 0 options_db
      strayPhase deadRunWorld
  = Some [EvSetPhase ""; EvPersist ""].
Proof.
  rewrite (Run_unknown_phase (publish runningManager) 0 options_db strayPhase
             deadRunWorld); [reflexivity | reflexivity | discriminate..].
Defined.

(** X24 at work: a fresh run on a terminator that is closed already marks
    its 500 attachments, persists and returns, with the phase field at
    "mark". *)
Lemma Run_cancelled_before_start_witness :
  let a := mkAttachmentCompactionManager 0 0 "uuid-1" "" false in
  let a2 := mkAttachmentCompactionManager 500 0 "uuid-1" "mark" false in
  let w1 := snd (publish runningManager (SetPhase "mark" a) (worldWith 0 true [] [])) in
  AttachmentCompactionManager_Run (publish runningManager) 0 options_db a
    (worldWith 0 true [] [])
  = Some (mkRunResult None a2 (snd (publish runningManager a2 w1))
            (stage "mark" None true ++ [EvPersist "mark"])) /\
  Phase a2 = "mark" /\ CompactID a2 = CompactID a /\ dryRun a2 = dryRun a.
Proof.
  intros a a2 w1.
  apply (Run_cancelled_before_start (publish runningManager) 0 options_db a
           (worldWith 0 true [] [])).
  - reflexivity.
  - reflexivity.
  - intros p w0 Hclosed. unfold publish, IsClosed in *.
    rewrite UpdateStatusClusterAware_terminators. exact Hclosed.
  - intros c n w0 Hclosed. exact Hclosed.
  - intros c d n w0 Hclosed. exact Hclosed.
  - intros c w0 Hclosed. exact Hclosed.
  - reflexivity.
  - reflexivity.
Defined.

(** X26 at work: a tombstone compaction that purges seven documents while
    the database is marked as compacting. *)
Lemma TombstoneCompactionManager_Run_outcome_witness :
  exists cs2,
    TombstoneCompactionManager_Run compactSeven 1 0 options_db 0
      (mkTombstoneCompactionManager 0) (worldWith 0 false [] []) 1
    = Some (None, mkTombstoneCompactionManager 7, (worldWith 0 false [] [], cs2)) /\
    cs2 <> 1%Z /\ (1%Z <> 1%Z -> cs2 = 1%Z).
Proof.
  apply (TombstoneCompactionManager_Run_outcome compactSeven 1 0 options_db 0
           (mkTombstoneCompactionManager 0) (worldWith 0 false [] []) 1).
  - reflexivity.
  - discriminate.
Defined.
